(** * gromacs.tools: a shallow embedding of the command-class factory

    The module [gromacs/tools.py] builds one wrapper class per configured
    Gromacs tool, patches two of them so that they accept several index
    files, registers the configured external scripts and publishes the
    lot.  This development embeds the module level code and the class
    [GromacsCommandMultiIndex] and proves the properties of the registry
    and of the temporary index file. *)

From Stdlib Require Import String Ascii List ZArith NArith Lia Permutation.
From stdpp Require Import gmap strings list sorting.

Local Open Scope string_scope.
Local Open Scope list_scope.

(** ** Byte strings of Python 2 *)

Module PyStr.

Definition ord (c : ascii) : N := N_of_ascii c.
Definition chr (n : N) : ascii := ascii_of_N n.

(** The character that delimits Rocq strings, needed by [repr]. *)
Definition dquote : ascii := chr 34.
Definition squote : ascii := "'"%char.
Definition backslash : ascii := "\"%char.
Definition nl : string := String (chr 10) EmptyString.

(** [str.upper] and [str.lower] on one byte, in the C locale. *)
Definition upper (c : ascii) : ascii :=
  if ((97 <=? ord c) && (ord c <=? 122))%N then chr (ord c - 32) else c.

Definition lower (c : ascii) : ascii :=
  if ((65 <=? ord c) && (ord c <=? 90))%N then chr (ord c + 32) else c.

Fixpoint map (f : ascii -> ascii) (s : string) : string :=
  match s with
  | EmptyString => EmptyString
  | String c r => String (f c) (map f r)
  end.

(** [s.replace(old, new)] for one-character [old] and [new]. *)
Definition replace (old new : ascii) (s : string) : string :=
  map (fun c => if Ascii.eqb c old then new else c) s.

(** [s.capitalize()]: first byte upper-cased, the rest lower-cased. *)
Definition capitalize (s : string) : string :=
  match s with
  | EmptyString => EmptyString
  | String c r => String (upper c) (map lower r)
  end.

Fixpoint mem (c : ascii) (s : string) : bool :=
  match s with
  | EmptyString => false
  | String d r => Ascii.eqb c d || mem c r
  end.

Definition hexdigit (n : N) : ascii :=
  if (n <? 10)%N then chr (48 + n) else chr (87 + n).

Definition repr_char (quote c : ascii) : string :=
  if Ascii.eqb c quote || Ascii.eqb c backslash then String backslash (String c EmptyString)
  else if (ord c =? 9)%N then String backslash "t"
  else if (ord c =? 10)%N then String backslash "n"
  else if (ord c =? 13)%N then String backslash "r"
  else if ((ord c <? 32) || (127 <=? ord c))%N then
    String backslash (String "x" (String (hexdigit (ord c / 16))
                                   (String (hexdigit (ord c mod 16)) EmptyString)))
  else String c EmptyString.

Fixpoint repr_body (quote : ascii) (s : string) : string :=
  match s with
  | EmptyString => EmptyString
  | String c r => repr_char quote c ++ repr_body quote r
  end.

(** [repr(s)], what the conversion [%r] prints. *)
Definition repr (s : string) : string :=
  let quote := if mem squote s && negb (mem dquote s) then dquote else squote in
  String quote (repr_body quote s ++ String quote EmptyString).

(** [os.path.basename]: what follows the last slash. *)
Fixpoint basename_aux (acc s : string) : string :=
  match s with
  | EmptyString => acc
  | String c r => if Ascii.eqb c "/" then basename_aux r r else basename_aux acc r
  end.

Definition basename (p : string) : string := basename_aux p p.

(** [sorted] on a list of byte strings: Python's stable merge sort under
    the byte-wise lexicographic order. *)
Definition sorted (l : list string) : list string := merge_sort String.le l.

End PyStr.

(** ** Generated classes and the registry *)

(** The classes a generated class can derive from.  [GromacsCommand] and
    [Command] come from [gromacs.core]; [GromacsCommandMultiIndex] is defined
    in this module on top of [GromacsCommand]. *)
Inductive base_class : Type :=
| Command
| GromacsCommand
| GromacsCommandMultiIndex.

Global Instance base_class_eq_dec : EqDecision base_class.
Proof. solve_decision. Defined.

(** What [type(clsname, (base,), {'command_name': .., '__doc__': ..})] and the
    two [class] statements build. *)
Record py_class : Type := mk_class {
  cls_name : string;
  cls_base : base_class;
  command_name : string;
  cls_doc : string
}.

Global Instance py_class_eq_dec : EqDecision py_class.
Proof. solve_decision. Defined.

(** [issubclass(c, b)] along Command <- GromacsCommand <- GromacsCommandMultiIndex. *)
Definition base_subclass (b c : base_class) : bool :=
  match b, c with
  | Command, _ => true
  | GromacsCommand, (GromacsCommand | GromacsCommandMultiIndex) => true
  | GromacsCommandMultiIndex, GromacsCommandMultiIndex => true
  | _, _ => false
  end.

Definition issubclass (c : py_class) (b : base_class) : bool :=
  base_subclass b (cls_base c).

(** The configuration read from [gromacs.config]. *)
Record config : Type := mk_config {
  load_tools : list string;
  load_scripts : list (string * string * string)
}.

(** The module level state the script builds up: the registry and the
    module doc string. *)
Record module_state : Type := mk_module {
  registry : gmap string py_class;
  module_doc : string
}.

Definition _generate_sphinx_class_string (clsname : string) : string :=
  ".. class:: " ++ clsname ++ PyStr.nl ++ "    :noindex:" ++ PyStr.nl.

(** [name.replace('.','_').replace('-','_').capitalize()] *)
Definition tool_clsname (name : string) : string :=
  PyStr.capitalize (PyStr.replace "-" "_" (PyStr.replace "." "_" name)).

(** The class the factory loop builds for a tool name. *)
Definition tool_class (name : string) : py_class :=
  {| cls_name := tool_clsname name;
     cls_base := GromacsCommand;
     command_name := name ++ "_mpi";
     cls_doc := "Gromacs tool " ++ PyStr.repr name ++ "." |}.

(** One iteration of [for name in sorted(config.load_tools)]. *)
Definition tool_step (m : module_state) (name : string) : module_state :=
  let clsname := tool_clsname name in
  let cls := tool_class name in
  {| registry := <[clsname := cls]> (registry m);
     module_doc := module_doc m ++ _generate_sphinx_class_string clsname |}.

Definition generate_tools (tools : list string) (m : module_state) : module_state :=
  fold_left tool_step (PyStr.sorted tools) m.

(** The two replacement classes. *)
Definition G_mindist : py_class :=
  {| cls_name := "G_mindist";
     cls_base := GromacsCommandMultiIndex;
     command_name := "g_mindist";
     cls_doc := "Gromacs tool 'g_mindist' (with patch to handle multiple ndx files)." |}.

Definition G_dist : py_class :=
  {| cls_name := "G_dist";
     cls_base := GromacsCommandMultiIndex;
     command_name := "g_dist";
     cls_doc := "Gromacs tool 'g_dist' (with patch to handle multiple ndx files)." |}.

(** [if key in registry: registry[key] = cls] *)
Definition patch (key : string) (cls : py_class) (m : module_state) : module_state :=
  match registry m !! key with
  | Some _ => {| registry := <[key := cls]> (registry m); module_doc := module_doc m |}
  | None => m
  end.

Definition patch_tools (m : module_state) : module_state :=
  patch "G_dist" G_dist (patch "G_mindist" G_mindist m).

(** The class built for a configured script. *)
Definition script_class (rec : string * string * string) : py_class :=
  let '(name, clsname, doc) := rec in
  let exec_name := PyStr.basename name in
  {| cls_name := clsname;
     cls_base := Command;
     command_name := name;
     cls_doc := "External tool " ++ PyStr.repr exec_name ++ PyStr.nl ++ PyStr.nl ++ doc ++ "." |}.

(** One iteration of [for rec in config.load_scripts]. *)
Definition script_step (m : module_state) (rec : string * string * string) : module_state :=
  let '(name, clsname, doc) := rec in
  {| registry := <[clsname := script_class rec]> (registry m);
     module_doc := module_doc m |}.

Definition register_scripts (scripts : list (string * string * string))
    (m : module_state) : module_state :=
  fold_left script_step scripts m.

(** The module as loaded: factory loop, patches, scripts.  [doc0] is the
    literal doc string at the head of the file. *)
Definition load_module (doc0 : string) (cfg : config) : module_state :=
  register_scripts (load_scripts cfg)
    (patch_tools
       (generate_tools (load_tools cfg) {| registry := ∅; module_doc := doc0 |})).

(** [globals().update(registry)] and [__all__ = registry.keys()]. *)
Definition published (cfg : config) : gmap string py_class :=
  registry (load_module "" cfg).

Definition tools_registry (tools : list string) : gmap string py_class :=
  registry (generate_tools tools {| registry := ∅; module_doc := "" |}).

(** ** Python values, exceptions and the world outside the module *)

(** The values of Python 2 that reach the module.  [PyStr] is an object
    whose type is exactly [str]; [PyUnicode] is a [unicode] object, given by
    its text; [PyStrSubclass] is an instance of a class derived from [str],
    given by the name of the class and its text. *)
#[warnings="-register-all"]
Inductive pyval : Type :=
| PyNone
| PyBool (b : bool)
| PyInt (z : Z)
| PyStr (s : string)
| PyUnicode (s : string)
| PyStrSubclass (cls : string) (s : string)
| PyList (l : list pyval)
| PyTuple (l : list pyval).

Inductive errno : Type := ENOENT | EEXIST | EACCES | EPERM | EBUSY | EROFS.

Inductive exn : Type :=
| TypeError (what : string)
| NameError (name : string)
| AttributeError (attr : string)
| OSError (e : errno)
| IOError (e : errno)
| GromacsError (rc : Z) (msg : string)
| OtherError (cls : string).

Inductive res (A : Type) : Type :=
| Ok (a : A)
| Raise (e : exn).
Arguments Ok {A} a.
Arguments Raise {A} e.

(** Keyword arguments: a dict with string keys. *)
Abbreviation kwargs := (gmap string pyval).

(** [d.get(k)]: the value, or [None] when the key is missing. *)
Definition dict_get (d : kwargs) (k : string) : pyval :=
  match d !! k with
  | Some v => v
  | None => PyNone
  end.

(** [x is None] and [type(x) is str]; the latter holds of no [unicode]
    object and of no instance of a subclass of [str]. *)
Definition is_None (v : pyval) : bool :=
  match v with PyNone => true | _ => false end.

Definition type_is_str (v : pyval) : bool :=
  match v with PyStr _ => true | _ => false end.

(** [len(x)]: defined on strings of every kind, lists and tuples, a
    [TypeError] on the other values. *)
Definition py_len (v : pyval) : res nat :=
  match v with
  | PyStr s | PyUnicode s | PyStrSubclass _ s => Ok (String.length s)
  | PyList l | PyTuple l => Ok (length l)
  | PyNone => Raise (TypeError "object of type 'NoneType' has no len()")
  | PyBool _ => Raise (TypeError "object of type 'bool' has no len()")
  | PyInt _ => Raise (TypeError "object of type 'int' has no len()")
  end.

(** What [gromacs.core] is seen doing: an instance of a class is
    initialised, or run. *)
Inductive event : Type :=
| CoreInit (c : py_class) (kw : kwargs)
| CoreRun (c : py_class) (args : list pyval) (kw : kwargs).

(** The world outside this module.  [fs] holds the paths of the files that
    exist.  [tmp_names] are the names [tempfile] will draw, in order, the
    list standing for the [TMP_MAX] tries of one call after the other.
    [unlink_refused] tells for which paths the system refuses a deletion and
    why.  [init_raises] and [run_result] are what the command wrapper of
    [gromacs.core] does with a class and its arguments, given what it did
    before and the files present; the files the external tools write
    themselves are not tracked.  [history] records the calls that reached
    the wrapper, latest first. *)
Record world : Type := mk_world {
  fs : gset string;
  tmpdir : string;
  tmp_names : list string;
  unlink_refused : string -> option errno;
  init_raises : list event -> gset string -> py_class -> kwargs -> option exn;
  run_result : list event -> gset string -> py_class -> list pyval -> kwargs ->
               res (Z * string * string);
  history : list event
}.

(** The attributes this module keeps on an instance; [None] is an
    attribute that was never assigned. *)
Record instance : Type := mk_instance {
  inst_class : py_class;
  multi_ndx : option string;
  orig_ndx : option pyval
}.

Definition fresh_instance (c : py_class) : instance :=
  {| inst_class := c; multi_ndx := None; orig_ndx := None |}.

(** ** Methods as state transformers that may raise *)

Definition state : Type := instance * world.

Definition M (A : Type) : Type := state -> res A * state.

Definition ret {A} (a : A) : M A := fun st => (Ok a, st).

Definition raise {A} (e : exn) : M A := fun st => (Raise e, st).

Definition bind {A B} (c : M A) (k : A -> M B) : M B :=
  fun st =>
    match c st with
    | (Ok a, st') => k a st'
    | (Raise e, st') => (Raise e, st')
    end.

Notation "x <- c ;; k" := (bind c (fun x => k))
  (at level 100, c at next level, right associativity).
Notation "c ;;; k" := (bind c (fun _ => k))
  (at level 100, right associativity).

(** [try: body  except <classes>: pass]: the exceptions [caught] accepts
    end the statement normally, the others go on. *)
Definition try_pass (caught : exn -> bool) (body : M unit) : M unit :=
  fun st =>
    match body st with
    | (Ok u, st') => (Ok u, st')
    | (Raise e, st') => if caught e then (Ok tt, st') else (Raise e, st')
    end.

Definition lift_res {A} (r : res A) : M A := fun st => (r, st).

Definition get_world : M world := fun st => (Ok (snd st), st).
Definition get_self : M instance := fun st => (Ok (fst st), st).
Definition put_world (w : world) : M unit := fun st => (Ok tt, (fst st, w)).
Definition put_self (i : instance) : M unit := fun st => (Ok tt, (i, snd st)).

Definition set_fs (f : gset string) (w : world) : world :=
  {| fs := f; tmpdir := tmpdir w; tmp_names := tmp_names w;
     unlink_refused := unlink_refused w; init_raises := init_raises w;
     run_result := run_result w; history := history w |}.

Definition set_tmp_names (l : list string) (w : world) : world :=
  {| fs := fs w; tmpdir := tmpdir w; tmp_names := l;
     unlink_refused := unlink_refused w; init_raises := init_raises w;
     run_result := run_result w; history := history w |}.

Definition record (e : event) (w : world) : world :=
  {| fs := fs w; tmpdir := tmpdir w; tmp_names := tmp_names w;
     unlink_refused := unlink_refused w; init_raises := init_raises w;
     run_result := run_result w; history := e :: history w |}.

(** *** The collaborators *)

(** [tempfile.mkstemp(suffix, prefix)] of the Python library: the drawn
    names are tried in turn, a name whose file exists is skipped, the first
    free one is created and its absolute path returned; [IOError] when the
    tries are used up.  The file descriptor that comes with the path is
    never used by the module and is left out. *)
Definition tmp_path (dir prefix name suffix : string) : string :=
  dir ++ "/" ++ prefix ++ name ++ suffix.

Fixpoint mkstemp_inner (dir prefix suffix : string) (f : gset string)
    (names : list string) : option string * list string :=
  match names with
  | [] => (None, [])
  | name :: rest =>
      let file := tmp_path dir prefix name suffix in
      if decide (file ∈ f) then mkstemp_inner dir prefix suffix f rest
      else (Some file, rest)
  end.

Definition mkstemp (suffix prefix : string) : M string :=
  w <- get_world ;;
  match mkstemp_inner (tmpdir w) prefix suffix (fs w) (tmp_names w) with
  | (Some file, rest) =>
      put_world (set_tmp_names rest (set_fs ({[file]} ∪ fs w) w)) ;;;
      ret file
  | (None, rest) =>
      put_world (set_tmp_names rest w) ;;;
      raise (IOError EEXIST)
  end.

(** Modelled from the spec: [utilities.unlink_gmx] is not part of this
    module.  It deletes the file of the given path; a deletion the system
    refuses, or the deletion of a file that does not exist, is an
    [OSError]. *)
Definition unlink_gmx (path : string) : M unit :=
  w <- get_world ;;
  match unlink_refused w path with
  | Some e => raise (OSError e)
  | None =>
      if decide (path ∈ fs w) then put_world (set_fs (fs w ∖ {[path]}) w)
      else raise (OSError ENOENT)
  end.

(** Modelled from the spec: the initialiser of [GromacsCommand] and
    [Command] lives in [gromacs.core], not in this module, which only
    configures and subclasses it.  Building an instance of a class with
    keyword arguments [kw] is recorded, and raises when the wrapper
    does. *)
Definition core_init (c : py_class) (kw : kwargs) : M unit :=
  w <- get_world ;;
  put_world (record (CoreInit c kw) w) ;;;
  match init_raises w (history w) (fs w) c kw with
  | Some e => raise e
  | None => ret tt
  end.

(** Modelled from the spec: the method [run] of [gromacs.core], which
    calling an instance comes down to, marshals the options, executes the
    command and returns a result.  The call is recorded; it gives the triple
    [(rc, out, err)] or the exception of the wrapper. *)
Definition core_run (c : py_class) (args : list pyval) (kw : kwargs) :
    M (Z * string * string) :=
  w <- get_world ;;
  put_world (record (CoreRun c args kw) w) ;;;
  lift_res (run_result w (history w) (fs w) c args kw).

(** ** GromacsCommandMultiIndex *)

Section MultiIndex.

(** The module's global names that are classes: the published registry.
    The names the module uses for itself ([tempfile], [utilities], the base
    classes) are taken to be what the file imports and defines: no
    configured class is assumed to be published under one of them. *)
Variable globals : gmap string py_class.

(** Reading a global name. *)
Definition global (name : string) : M py_class :=
  match globals !! name with
  | Some c => ret c
  | None => raise (NameError name)
  end.

(** Reading [self.multi_ndx]. *)
Definition self_multi_ndx : M string :=
  self <- get_self ;;
  match multi_ndx self with
  | Some p => ret p
  | None => raise (AttributeError "multi_ndx")
  end.

Definition set_multi_ndx (p : string) : M unit :=
  self <- get_self ;;
  put_self {| inst_class := inst_class self; multi_ndx := Some p;
              orig_ndx := orig_ndx self |}.

Definition set_orig_ndx (v : pyval) : M unit :=
  self <- get_self ;;
  put_self {| inst_class := inst_class self; multi_ndx := multi_ndx self;
              orig_ndx := Some v |}.

(** The keyword arguments of the two calls on [Make_ndx]. *)
Definition make_ndx_init_kwargs (kw : kwargs) (ndx : pyval) : kwargs :=
  <["f" := dict_get kw "s"]> (<["n" := ndx]> ∅).

Definition make_ndx_call_kwargs (out : string) : kwargs :=
  <["o" := PyStr out]> (<["input" := PyList [PyStr "q"]]>
    (<["stdout" := PyBool false]> (<["stderr" := PyBool false]> ∅))).

(** [Make_ndx] is read from the module's globals when the method runs.
    It is built and called through the command wrapper: the published
    registry never binds that name to a class under
    [GromacsCommandMultiIndex]. *)
Definition _fake_multi_ndx (kw : kwargs) : M kwargs :=
  let ndx := dict_get kw "n" in
  if negb (is_None ndx || type_is_str ndx) then
    n <- lift_res (py_len ndx) ;;
    if (1 <? n)%nat then
      tmp <- mkstemp ".ndx" "multi_" ;;
      set_multi_ndx tmp ;;;
      Make_ndx <- global "Make_ndx" ;;
      core_init Make_ndx (make_ndx_init_kwargs kw ndx) ;;;
      out <- self_multi_ndx ;;
      _ <- core_run Make_ndx [] (make_ndx_call_kwargs out) ;;
      set_orig_ndx ndx ;;;
      path <- self_multi_ndx ;;
      ret (<["n" := PyStr path]> kw)
    else ret kw
  else ret kw.

Definition __init__ (kw : kwargs) : M unit :=
  kw' <- _fake_multi_ndx kw ;;
  self <- get_self ;;
  core_init (inst_class self) kw'.

Definition run (args : list pyval) (kw : kwargs) : M (Z * string * string) :=
  kw' <- _fake_multi_ndx kw ;;
  self <- get_self ;;
  core_run (inst_class self) args kw'.

(** [except (AttributeError, OSError)] *)
Definition del_caught (e : exn) : bool :=
  match e with
  | AttributeError _ | OSError _ => true
  | _ => false
  end.

Definition __del__ : M unit :=
  try_pass del_caught (path <- self_multi_ndx ;; unlink_gmx path).

(** Method resolution for the classes of the registry: the classes under
    [GromacsCommandMultiIndex] get its [__init__] and [run], the others
    the ones of [gromacs.core]. *)
Definition class_init (c : py_class) (kw : kwargs) : M unit :=
  match cls_base c with
  | GromacsCommandMultiIndex => __init__ kw
  | _ => core_init c kw
  end.

Definition class_run (c : py_class) (args : list pyval) (kw : kwargs) :
    M (Z * string * string) :=
  match cls_base c with
  | GromacsCommandMultiIndex => run args kw
  | _ => core_run c args kw
  end.

End MultiIndex.

(** ** Auxiliary definitions for the statements *)

(** A loop that stores [val x] under [key x] for the elements of a list in
    turn: both loops of the module are of this shape on the registry. *)
Definition insert_all {A : Type} (key : A -> string) (val : A -> py_class)
    (l : list A) (r : gmap string py_class) : gmap string py_class :=
  fold_left (fun r x => <[key x := val x]> r) l r.

(** The class name of a script record. *)
Definition script_clsname (rec : string * string * string) : string := snd (fst rec).

(** The path of a script record. *)
Definition script_path (rec : string * string * string) : string := fst (fst rec).

(** The registry before the scripts are registered. *)
Definition patched_registry (tools : list string) : gmap string py_class :=
  registry (patch_tools (generate_tools tools {| registry := ∅; module_doc := "" |})).

(** The registry key in the words of the documentation: dots and dashes
    become underscores, then the first character is upper-cased and all the
    others lower-cased. *)
Definition is_separator (c : ascii) : bool := Ascii.eqb c "." || Ascii.eqb c "-".

(** The letters, spelled out: upper-casing and lower-casing are read off
    these two alphabets and owe nothing to the byte arithmetic of
    [PyStr.upper] and [PyStr.lower]. *)
Definition lowercase_letters : string := "abcdefghijklmnopqrstuvwxyz".
Definition uppercase_letters : string := "ABCDEFGHIJKLMNOPQRSTUVWXYZ".

(** The character of [to] at the place where [c] stands in [from], and
    [c] itself when it does not stand in [from]. *)
Fixpoint translate (from to : string) (c : ascii) : ascii :=
  match from, to with
  | String a from', String b to' =>
      if Ascii.eqb c a then b else translate from' to' c
  | _, _ => c
  end.

Definition uppercased (c : ascii) : ascii :=
  translate lowercase_letters uppercase_letters c.

Definition lowercased (c : ascii) : ascii :=
  translate uppercase_letters lowercase_letters c.

Definition key_of_name (name : string) : string :=
  match PyStr.map (fun c => if is_separator c then "_"%char else c) name with
  | EmptyString => EmptyString
  | String c r => String (uppercased c) (PyStr.map lowercased r)
  end.

(** A string whose first character is no lower-case letter and whose
    other characters are no upper-case letters. *)
Definition capitalized_shape (k : string) : Prop :=
  match k with
  | EmptyString => True
  | String c r =>
      PyStr.mem c lowercase_letters = false /\
      forall d, PyStr.mem d r = true -> PyStr.mem d uppercase_letters = false
  end.

(** Two characters that are the same letter in either case, or are both
    among dot, dash and underscore. *)
Definition alike (c d : ascii) : bool :=
  Ascii.eqb (lowercased c) (lowercased d)
  || ((is_separator c || Ascii.eqb c "_") && (is_separator d || Ascii.eqb d "_")).

(** Names that differ only in letter case or in separator characters. *)
Inductive same_modulo_case_sep : string -> string -> Prop :=
| same_empty : same_modulo_case_sep EmptyString EmptyString
| same_char (c d : ascii) (s t : string) :
    alike c d = true -> same_modulo_case_sep s t ->
    same_modulo_case_sep (String c s) (String d t).

Definition all_ascii : list ascii := List.map ascii_of_nat (seq 0 256).

(** Every configured tool has its class in the published registry, bound
    to the tool name followed by [_mpi]. *)
Definition every_tool_bound (cfg : config) : Prop :=
  forall name, name ∈ load_tools cfg ->
    exists c, published cfg !! tool_clsname name = Some c /\
              cls_name c = tool_clsname name /\
              command_name c = (name ++ "_mpi")%string.

(** Every configured script has its class in the published registry, bound
    to its path. *)
Definition every_script_bound (cfg : config) : Prop :=
  forall rec, rec ∈ load_scripts cfg ->
    exists c, published cfg !! script_clsname rec = Some c /\
              command_name c = script_path rec.

(** Registering the scripts leaves the classes made for the tools as they
    were. *)
Definition tools_undisturbed (cfg : config) : Prop :=
  forall k c, patched_registry (load_tools cfg) !! k = Some c ->
              published cfg !! k = Some c.

(** What the patch step does for one of the two tools: the replacement
    class sits under [key] exactly when the factory loop produced a class
    under [key], which is when some configured name has that class name (the
    tool name [tool] itself for one); otherwise there is no entry.  The
    published registry has the same entry under [key] as long as no script
    takes that class name, and the class of the script when one does. *)
Definition patched_iff_generated (tools : list string) (tool key : string)
    (cls : py_class) : Prop :=
  (is_Some (tools_registry tools !! key) <-> patched_registry tools !! key = Some cls) /\
  (tools_registry tools !! key = None -> patched_registry tools !! key = None) /\
  (is_Some (tools_registry tools !! key) <-> exists n, n ∈ tools /\ tool_clsname n = key) /\
  (tool ∈ tools -> patched_registry tools !! key = Some cls) /\
  (forall scripts, (forall r, r ∈ scripts -> script_clsname r ≠ key) ->
     published {| load_tools := tools; load_scripts := scripts |} !! key
     = patched_registry tools !! key) /\
  (forall scripts r, r ∈ scripts -> script_clsname r = key ->
     exists c, published {| load_tools := tools; load_scripts := scripts |} !! key = Some c /\
               cls_base c = Command /\
               issubclass c GromacsCommandMultiIndex = false).

(** The two calls of [replace] on one character. *)
Definition underscored (c : ascii) : ascii :=
  let c1 := if Ascii.eqb c "." then "_"%char else c in
  if Ascii.eqb c1 "-" then "_"%char else c1.

(** ** Worlds and configurations for the examples *)

(** A world in which nothing goes wrong: no deletion is refused and every
    command returns [(0, '', '')]. *)
Definition quiet_world (files names : list string) : world :=
  {| fs := list_to_set files;
     tmpdir := "/tmp";
     tmp_names := names;
     unlink_refused := fun _ => None;
     init_raises := fun _ _ _ _ => None;
     run_result := fun _ _ _ _ _ => Ok (0%Z, "", "");
     history := [] |}.

Definition example_config : config :=
  {| load_tools := ["g_mindist"; "make_ndx"; "mdrun"; "g_dist"];
     load_scripts := [("/opt/GridMAT-MD.pl", "GridMAT_MD", "grid")] |}.

Definition example_globals : gmap string py_class := published example_config.

(** A configuration in which a class name is used three times. *)
Definition colliding_config : config :=
  {| load_tools := ["mdrun"];
     load_scripts := [("/opt/first.sh", "Mdrun", "one");
                      ("/opt/second.sh", "Mdrun", "two")] |}.

Definition two_indices : kwargs :=
  <["n" := PyList [PyStr "a.ndx"; PyStr "b.ndx"]]> (<["s" := PyStr "md.tpr"]> ∅).

(** An instance of [G_mindist] built with two index files, run once more
    with two index files, and destroyed. *)
Definition built_run_destroyed : M unit :=
  __init__ example_globals two_indices ;;;
  _ <- run example_globals [] two_indices ;;
  __del__.

Definition two_names_state : state :=
  (fresh_instance G_mindist, quiet_world ["a.ndx"; "b.ndx"; "md.tpr"] ["k3x9Qa"; "Zp0w2L"]).

(** ** Auxiliary definitions for the statements on the methods *)

(** The path [mkstemp] settles on in a world, if there is one. *)
Definition drawn (w : world) : option string :=
  fst (mkstemp_inner (tmpdir w) "multi_" ".ndx" (fs w) (tmp_names w)).

(** The world once [mkstemp] has created [tmp]. *)
Definition after_mkstemp (w : world) (tmp : string) : world :=
  set_tmp_names (snd (mkstemp_inner (tmpdir w) "multi_" ".ndx" (fs w) (tmp_names w)))
    (set_fs ({[tmp]} ∪ fs w) w).

(** What the command wrapper answers to the two calls on [Make_ndx] that
    follow the creation of [tmp]: the exception of the initialiser, or else
    the result of the run. *)
Definition make_ndx_outcome (w : world) (c : py_class) (kw : kwargs) (tmp : string) :
    res (Z * string * string) :=
  let init_kw := make_ndx_init_kwargs kw (dict_get kw "n") in
  match init_raises w (history w) ({[tmp]} ∪ fs w) c init_kw with
  | Some e => Raise e
  | None =>
      run_result w (CoreInit c init_kw :: history w) ({[tmp]} ∪ fs w) c []
        (make_ndx_call_kwargs tmp)
  end.

(** The index argument is a list or a tuple of more than one entry. *)
Definition several_indices (kw : kwargs) (items : list pyval) : Prop :=
  (dict_get kw "n" = PyList items \/ dict_get kw "n" = PyTuple items) /\
  1 < length items.

(** The index argument is missing, [None], a file name whose type is
    exactly [str], or a value with a length of at most one: a list or a
    tuple of at most one entry, or a [unicode] or [str]-derived string of at
    most one character. *)
Definition single_index (kw : kwargs) : Prop :=
  kw !! "n" = None \/
  kw !! "n" = Some PyNone \/
  (exists s, kw !! "n" = Some (PyStr s)) \/
  (exists v n, kw !! "n" = Some v /\ py_len v = Ok n /\ n <= 1).

(** The events of the two calls on [Make_ndx]. *)
Definition make_ndx_events (c : py_class) (kw : kwargs) (tmp : string) : list event :=
  [CoreRun c [] (make_ndx_call_kwargs tmp);
   CoreInit c (make_ndx_init_kwargs kw (dict_get kw "n"))].

(** A world in which the run of [make_ndx] fails. *)
Definition failing_world : world :=
  {| fs := list_to_set ["a.ndx"; "b.ndx"; "md.tpr"];
     tmpdir := "/tmp";
     tmp_names := ["k3x9Qa"; "Zp0w2L"];
     unlink_refused := fun _ => None;
     init_raises := fun _ _ _ _ => None;
     run_result := fun _ _ _ _ _ => Raise (GromacsError 1 "make_ndx failed");
     history := [] |}.

(** ** Further definitions: publication and the module doc string *)

(** [__all__ = registry.keys()]: the names the module exports.  A Python
    dict gives its keys in no particular order; here they come as the
    elements of the key set. *)
Definition __all__ (cfg : config) : list string := elements (dom (published cfg)).

(** The lines the factory loop adds to the module doc string for a list of
    tool names, in the order of the list. *)
Fixpoint doc_entries (names : list string) : string :=
  match names with
  | [] => EmptyString
  | name :: rest => _generate_sphinx_class_string (tool_clsname name) ++ doc_entries rest
  end.

(** A configuration without [make_ndx], and a world whose only temporary
    name is taken. *)
Definition config_without_make_ndx : config :=
  {| load_tools := ["g_mindist"; "mdrun"]; load_scripts := [] |}.

Definition crowded_world : world :=
  quiet_world ["a.ndx"; "b.ndx"; "/tmp/multi_k3x9Qa.ndx"] ["k3x9Qa"].

(** A class that derives from [GromacsCommandMultiIndex] and so runs the
    merge of the index files in its initialiser and in [run]: called with
    several index files, both leave a temporary file, created and
    remembered on the instance. *)
Definition exposes_multi_index (c : py_class) : Prop :=
  issubclass c GromacsCommandMultiIndex = true /\
  (forall g, class_init g c = __init__ g /\ class_run g c = run g) /\
  (forall g kw items self w tmp args,
     several_indices kw items -> drawn w = Some tmp ->
     multi_ndx (fst (snd (class_run g c args kw (self, w)))) = Some tmp /\
     fs (snd (snd (class_run g c args kw (self, w)))) = {[tmp]} ∪ fs w /\
     multi_ndx (fst (snd (class_init g c kw (self, w)))) = Some tmp /\
     fs (snd (snd (class_init g c kw (self, w)))) = {[tmp]} ∪ fs w).

(** The patch as a reader may take it: the published registry holds under
    [key] a class derived from [GromacsCommandMultiIndex] if and only if the
    tool [tool] is configured, and holds nothing under [key] otherwise. *)
Definition patched_iff_configured (cfg : config) (tool key : string) : Prop :=
  ((exists c, published cfg !! key = Some c /\
              issubclass c GromacsCommandMultiIndex = true)
   <-> tool ∈ load_tools cfg) /\
  (tool ∉ load_tools cfg -> published cfg !! key = None).

(** A configuration that spells the tool in capitals and with a dash, and
    one with a script that takes the class name of the tool. *)
Definition capitals_config : config :=
  {| load_tools := ["G-MINDIST"]; load_scripts := [] |}.

Definition script_G_mindist_config : config :=
  {| load_tools := []; load_scripts := [("/opt/bin/mindist.sh", "G_mindist", "wrapper")] |}.

(** A single file name as a caller may give it: a string of type [str], a
    [unicode] string, or an instance of a class derived from [str]. *)
Definition filename_string (v : pyval) : Prop :=
  exists s, v = PyStr s \/ v = PyUnicode s \/ exists cls, v = PyStrSubclass cls s.

(** The index argument is missing, [None], a single file name of any of
    these kinds, or a list or tuple of at most one entry. *)
Definition single_index_any_string (kw : kwargs) : Prop :=
  kw !! "n" = None \/
  kw !! "n" = Some PyNone \/
  (exists v, kw !! "n" = Some v /\ filename_string v) \/
  (exists items, (kw !! "n" = Some (PyList items) \/ kw !! "n" = Some (PyTuple items)) /\
                 length items <= 1).

(** Every such index argument passes through, nothing else happening. *)
Definition single_index_passes_through : Prop :=
  forall g kw st, single_index_any_string kw -> _fake_multi_ndx g kw st = (Ok kw, st).

Definition unicode_index : kwargs := <["n" := PyUnicode "index.ndx"]> ∅.

Example clsname_gridmat : tool_clsname "GridMAT-MD.pl" = "Gridmat_md_pl".
Proof. reflexivity. Qed.

Example repr_plain : PyStr.repr "g_dist" = "'g_dist'".
Proof. reflexivity. Qed.

Example repr_quote :
  PyStr.repr "it's" = String PyStr.dquote ("it's" ++ String PyStr.dquote EmptyString).
Proof. reflexivity. Qed.

Example basename_script : PyStr.basename "/opt/GridMAT-MD.pl" = "GridMAT-MD.pl".
Proof. reflexivity. Qed.

Example sorted_tools :
  PyStr.sorted ["mdrun"; "g_dist"; "a.b"; "a-b"; "Zed"] = ["Zed"; "a-b"; "a.b"; "g_dist"; "mdrun"].
Proof. vm_compute. reflexivity. Qed.

Example published_small :
  published {| load_tools := ["g_dist"; "mdrun"]; load_scripts := [] |} !! "Mdrun"
  = Some (tool_class "mdrun").
Proof. vm_compute. reflexivity. Qed.

(** ** The two loops on the registry *)

Section InsertAll.

Context {A : Type} (key : A -> string) (val : A -> py_class).

Lemma insert_all_snoc (l : list A) (x : A) (r : gmap string py_class) :
  insert_all key val (l ++ [x]) r = <[key x := val x]> (insert_all key val l r).
Proof. unfold insert_all. by rewrite fold_left_app. Qed.

Lemma insert_all_other (l : list A) (r : gmap string py_class) (k : string) :
  (forall x, x ∈ l -> key x ≠ k) ->
  insert_all key val l r !! k = r !! k.
Proof.
  revert r. induction l as [|y l IH]; intros r Hl; [done|].
  cbn. unfold insert_all in IH. rewrite IH.
  - apply lookup_insert_ne, Hl. by left.
  - intros x Hx. apply Hl. by right.
Qed.

(** The entry under a key is the one of the last element with that key. *)
Lemma insert_all_last (l1 l2 : list A) (x : A) (r : gmap string py_class) :
  (forall y, y ∈ l2 -> key y ≠ key x) ->
  insert_all key val (l1 ++ x :: l2) r !! key x = Some (val x).
Proof.
  intros Hl2. unfold insert_all. rewrite fold_left_app. cbn.
  fold (insert_all key val l2 (<[key x := val x]> (fold_left (fun r x => <[key x := val x]> r) l1 r))).
  rewrite insert_all_other; [|done]. apply lookup_insert_eq.
Qed.

Lemma insert_all_some (l : list A) (x : A) (r : gmap string py_class) :
  x ∈ l ->
  exists y, y ∈ l /\ key y = key x /\ insert_all key val l r !! key x = Some (val y).
Proof.
  induction l as [|z l IH] using rev_ind; intros Hx.
  - by apply elem_of_nil in Hx.
  - rewrite insert_all_snoc. destruct (decide (key z = key x)) as [Heq|Hne].
    + exists z. rewrite <- Heq, lookup_insert_eq.
      split; [apply elem_of_app; right; by left | done].
    + apply elem_of_app in Hx as [Hx|Hx%list_elem_of_singleton]; [|by subst].
      destruct (IH Hx) as (y & Hy & Hk & Hlook).
      exists y. rewrite lookup_insert_ne; [|done].
      split; [apply elem_of_app; by left | done].
Qed.

Lemma insert_all_inv (l : list A) (r : gmap string py_class) (k : string) (c : py_class) :
  insert_all key val l r !! k = Some c ->
  (exists x, x ∈ l /\ key x = k /\ c = val x) \/ r !! k = Some c.
Proof.
  induction l as [|z l IH] using rev_ind; intros Hlook; [by right|].
  rewrite insert_all_snoc in Hlook.
  destruct (decide (key z = k)) as [Heq|Hne].
  - subst k. rewrite lookup_insert_eq in Hlook. left. exists z.
    split; [apply elem_of_app; right; by left | by simplify_eq].
  - rewrite lookup_insert_ne in Hlook; [|done].
    destruct (IH Hlook) as [(x & Hx & Hk & Hc)|Hr]; [|by right].
    left. exists x. split; [apply elem_of_app; by left | done].
Qed.

End InsertAll.

Lemma registry_tool_steps (l : list string) (m : module_state) :
  registry (fold_left tool_step l m) = insert_all tool_clsname tool_class l (registry m).
Proof. revert m. induction l as [|x l IH]; intros m; [done|]. cbn. by rewrite IH. Qed.

Lemma registry_script_steps (l : list (string * string * string)) (m : module_state) :
  registry (register_scripts l m) = insert_all script_clsname script_class l (registry m).
Proof.
  revert m. unfold register_scripts.
  induction l as [|[[name clsname] doc] l IH]; intros m; [done|]. cbn. by rewrite IH.
Qed.

Lemma tools_registry_eq (tools : list string) :
  tools_registry tools = insert_all tool_clsname tool_class (PyStr.sorted tools) ∅.
Proof. unfold tools_registry, generate_tools. by rewrite registry_tool_steps. Qed.

Lemma elem_of_sorted (tools : list string) (n : string) :
  n ∈ PyStr.sorted tools <-> n ∈ tools.
Proof. unfold PyStr.sorted. by rewrite merge_sort_Permutation. Qed.

(** In the sorted list nothing with the key of [n] comes after the largest
    name with that key. *)
Lemma sorted_split_max (tools : list string) (n : string) :
  n ∈ tools ->
  (forall n', n' ∈ tools -> tool_clsname n' = tool_clsname n -> String.le n' n) ->
  exists l1 l2, PyStr.sorted tools = l1 ++ n :: l2 /\
                forall y, y ∈ l2 -> tool_clsname y ≠ tool_clsname n.
Proof.
  intros Hn Hmax.
  apply elem_of_sorted, list_elem_of_split_r in Hn as (l1 & l2 & Hs & Hnot).
  exists l1, l2. split; [done|]. intros y Hy Hk.
  assert (Hsorted : StronglySorted String.le (l1 ++ [n] ++ l2)).
  { cbn. rewrite <- Hs. apply (StronglySorted_merge_sort String.le). }
  assert (Hny : String.le n y).
  { apply StronglySorted_app_1_r in Hsorted.
    apply (StronglySorted_app_1_elem_of _ _ _ _ _ Hsorted); [by left | done]. }
  assert (Hyn : String.le y n).
  { apply Hmax; [|done]. apply elem_of_sorted. rewrite Hs.
    apply elem_of_app. right. by right. }
  apply Hnot. by rewrite (anti_symm String.le n y Hny Hyn).
Qed.

Lemma tools_registry_max (tools : list string) (n : string) :
  n ∈ tools ->
  (forall n', n' ∈ tools -> tool_clsname n' = tool_clsname n -> String.le n' n) ->
  tools_registry tools !! tool_clsname n = Some (tool_class n).
Proof.
  intros Hn Hmax. destruct (sorted_split_max tools n Hn Hmax) as (l1 & l2 & Hs & Hl2).
  rewrite tools_registry_eq, Hs. by apply insert_all_last.
Qed.

Lemma tools_registry_some (tools : list string) (n : string) :
  n ∈ tools ->
  exists n', n' ∈ tools /\ tool_clsname n' = tool_clsname n /\
             tools_registry tools !! tool_clsname n = Some (tool_class n').
Proof.
  intros Hn%elem_of_sorted.
  destruct (insert_all_some tool_clsname tool_class _ n ∅ Hn) as (y & Hy & Hk & Hlook).
  exists y. rewrite tools_registry_eq. rewrite elem_of_sorted in Hy. auto.
Qed.

Lemma tools_registry_inv (tools : list string) (k : string) (c : py_class) :
  tools_registry tools !! k = Some c ->
  exists n, n ∈ tools /\ tool_clsname n = k /\ c = tool_class n.
Proof.
  rewrite tools_registry_eq. intros [(n & Hn & Hk & Hc)|Hempty]%insert_all_inv.
  - exists n. rewrite elem_of_sorted in Hn. auto.
  - by rewrite lookup_empty in Hempty.
Qed.

Lemma insert_all_is_Some {A : Type} (key : A -> string) (val : A -> py_class)
    (l : list A) (r : gmap string py_class) (k : string) :
  is_Some (r !! k) -> is_Some (insert_all key val l r !! k).
Proof.
  induction l as [|z l IH] using rev_ind; intros Hr; [done|].
  rewrite insert_all_snoc. destruct (decide (key z = k)) as [<-|Hne].
  - rewrite lookup_insert_eq. by eexists.
  - rewrite lookup_insert_ne; auto.
Qed.

(** ** The patches *)

Lemma registry_patch (key : string) (cls : py_class) (m : module_state) (k : string) :
  registry (patch key cls m) !! k =
  if decide (k = key) then
    match registry m !! key with Some _ => Some cls | None => None end
  else registry m !! k.
Proof.
  unfold patch. destruct (registry m !! key) eqn:Hkey; cbn; case_decide; subst.
  - apply lookup_insert_eq.
  - by apply lookup_insert_ne.
  - done.
  - done.
Qed.

Lemma patched_G_mindist (tools : list string) :
  patched_registry tools !! "G_mindist" =
  match tools_registry tools !! "G_mindist" with Some _ => Some G_mindist | None => None end.
Proof.
  unfold patched_registry, patch_tools. rewrite registry_patch.
  rewrite decide_False by discriminate. rewrite registry_patch.
  by rewrite decide_True.
Qed.

Lemma patched_G_dist (tools : list string) :
  patched_registry tools !! "G_dist" =
  match tools_registry tools !! "G_dist" with Some _ => Some G_dist | None => None end.
Proof.
  unfold patched_registry, patch_tools. rewrite registry_patch.
  rewrite decide_True by done. rewrite registry_patch.
  by rewrite decide_False by discriminate.
Qed.

Lemma patched_other (tools : list string) (k : string) :
  k ≠ "G_mindist" -> k ≠ "G_dist" ->
  patched_registry tools !! k = tools_registry tools !! k.
Proof.
  intros H1 H2. unfold patched_registry, patch_tools.
  rewrite registry_patch, decide_False by done.
  by rewrite registry_patch, decide_False by done.
Qed.

Lemma patched_is_Some (tools : list string) (k : string) :
  is_Some (patched_registry tools !! k) <-> is_Some (tools_registry tools !! k).
Proof.
  destruct (decide (k = "G_mindist")) as [->|H1].
  { rewrite patched_G_mindist. destruct (tools_registry tools !! "G_mindist"); [|done].
    split; by eexists. }
  destruct (decide (k = "G_dist")) as [->|H2].
  { rewrite patched_G_dist. destruct (tools_registry tools !! "G_dist"); [|done].
    split; by eexists. }
  by rewrite patched_other.
Qed.

Lemma published_eq (cfg : config) :
  published cfg =
  insert_all script_clsname script_class (load_scripts cfg)
    (patched_registry (load_tools cfg)).
Proof. unfold published, load_module. by rewrite registry_script_steps. Qed.

Lemma published_not_script (cfg : config) (k : string) :
  (forall rec, rec ∈ load_scripts cfg -> script_clsname rec ≠ k) ->
  published cfg !! k = patched_registry (load_tools cfg) !! k.
Proof. intros Hk. rewrite published_eq. by apply insert_all_other. Qed.

Lemma script_class_name (rec : string * string * string) :
  cls_name (script_class rec) = script_clsname rec.
Proof. by destruct rec as [[name clsname] doc]. Qed.

Lemma script_class_path (rec : string * string * string) :
  command_name (script_class rec) = script_path rec.
Proof. by destruct rec as [[name clsname] doc]. Qed.

Lemma script_class_base (rec : string * string * string) :
  cls_base (script_class rec) = Command.
Proof. by destruct rec as [[name clsname] doc]. Qed.

(** Every class sits in the registry under its own name. *)
Lemma published_names (cfg : config) (k : string) (c : py_class) :
  published cfg !! k = Some c -> cls_name c = k.
Proof.
  rewrite published_eq. intros [(rec & _ & Hk & ->)|Hp]%insert_all_inv.
  { by rewrite script_class_name. }
  destruct (decide (k = "G_mindist")) as [->|H1].
  { rewrite patched_G_mindist in Hp.
    destruct (tools_registry _ !! "G_mindist"); by simplify_eq. }
  destruct (decide (k = "G_dist")) as [->|H2].
  { rewrite patched_G_dist in Hp.
    destruct (tools_registry _ !! "G_dist"); by simplify_eq. }
  rewrite patched_other in Hp by done.
  by apply tools_registry_inv in Hp as (n & _ & <- & ->).
Qed.

Lemma tools_registry_is_Some (tools : list string) (k : string) :
  is_Some (tools_registry tools !! k) <-> exists n, n ∈ tools /\ tool_clsname n = k.
Proof.
  split.
  - intros [c Hc]. apply tools_registry_inv in Hc as (n & Hn & Hk & _). eauto.
  - intros (n & Hn & <-).
    destruct (tools_registry_some tools n Hn) as (n' & _ & _ & Hlook). by eexists.
Qed.

Lemma patched_iff_generated_G_mindist (tools : list string) :
  patched_iff_generated tools "g_mindist" "G_mindist" G_mindist.
Proof.
  unfold patched_iff_generated.
  split; [|split; [|split; [|split; [|split]]]]; try rewrite patched_G_mindist.
  - destruct (tools_registry tools !! "G_mindist"); split; intros H; done.
  - by intros ->.
  - apply tools_registry_is_Some.
  - intros Hin.
    assert (Hs : is_Some (tools_registry tools !! "G_mindist")).
    { apply tools_registry_is_Some. by exists "g_mindist". }
    by destruct Hs as [c ->].
  - intros scripts Hscripts.
    rewrite (published_not_script {| load_tools := tools; load_scripts := scripts |}) by done.
    cbn. by rewrite patched_G_mindist.
  - intros scripts r Hr <-. rewrite published_eq. cbn [load_tools load_scripts].
    destruct (insert_all_some script_clsname script_class scripts r
                (patched_registry tools) Hr) as (r' & _ & _ & Hlook).
    exists (script_class r'). split; [exact Hlook|].
    unfold issubclass. by rewrite script_class_base.
Qed.

Lemma patched_iff_generated_G_dist (tools : list string) :
  patched_iff_generated tools "g_dist" "G_dist" G_dist.
Proof.
  unfold patched_iff_generated.
  split; [|split; [|split; [|split; [|split]]]]; try rewrite patched_G_dist.
  - destruct (tools_registry tools !! "G_dist"); split; intros H; done.
  - by intros ->.
  - apply tools_registry_is_Some.
  - intros Hin.
    assert (Hs : is_Some (tools_registry tools !! "G_dist")).
    { apply tools_registry_is_Some. by exists "g_dist". }
    by destruct Hs as [c ->].
  - intros scripts Hscripts.
    rewrite (published_not_script {| load_tools := tools; load_scripts := scripts |}) by done.
    cbn. by rewrite patched_G_dist.
  - intros scripts r Hr <-. rewrite published_eq. cbn [load_tools load_scripts].
    destruct (insert_all_some script_clsname script_class scripts r
                (patched_registry tools) Hr) as (r' & _ & _ & Hlook).
    exists (script_class r'). split; [exact Hlook|].
    unfold issubclass. by rewrite script_class_base.
Qed.


(** ** Class names *)

Lemma all_ascii_complete (c : ascii) : In c all_ascii.
Proof.
  unfold all_ascii. rewrite <- (ascii_nat_embedding c).
  apply in_map, in_seq. pose proof (nat_ascii_bounded c). lia.
Qed.

Lemma forall_ascii2 (P : ascii -> ascii -> bool) :
  forallb (fun c => forallb (P c) all_ascii) all_ascii = true ->
  forall c d, P c d = true.
Proof.
  intros H c d. rewrite forallb_forall in H.
  specialize (H c (all_ascii_complete c)). rewrite forallb_forall in H.
  apply H, all_ascii_complete.
Qed.

Lemma forall_ascii (P : ascii -> bool) :
  forallb P all_ascii = true -> forall c, P c = true.
Proof. intros H c. rewrite forallb_forall in H. apply H, all_ascii_complete. Qed.

Lemma replace_replace (s : string) :
  PyStr.replace "-" "_" (PyStr.replace "." "_" s) = PyStr.map underscored s.
Proof. induction s as [|c s IH]; [done|]. cbn. by rewrite <- IH. Qed.

Lemma underscored_separator (c : ascii) :
  underscored c = if is_separator c then "_"%char else c.
Proof.
  apply Ascii.eqb_eq. revert c. apply forall_ascii. vm_compute. reflexivity.
Qed.

Lemma alike_underscored (c d : ascii) :
  alike c d = true ->
  PyStr.upper (underscored c) = PyStr.upper (underscored d) /\
  PyStr.lower (underscored c) = PyStr.lower (underscored d).
Proof.
  intros H.
  assert (Hall : implb (alike c d)
            (Ascii.eqb (PyStr.upper (underscored c)) (PyStr.upper (underscored d))
             && Ascii.eqb (PyStr.lower (underscored c)) (PyStr.lower (underscored d))) = true).
  { revert c d H. intros c d _. revert c d. apply forall_ascii2. vm_compute. reflexivity. }
  rewrite H in Hall. cbn in Hall. apply andb_prop in Hall as [H1 H2].
  split; by apply Ascii.eqb_eq.
Qed.

Lemma same_modulo_lower (s t : string) :
  same_modulo_case_sep s t ->
  PyStr.map PyStr.lower (PyStr.map underscored s)
  = PyStr.map PyStr.lower (PyStr.map underscored t).
Proof.
  induction 1 as [|c d s t Hcd _ IH]; [done|]. cbn.
  destruct (alike_underscored c d Hcd) as [_ ->]. by rewrite IH.
Qed.

Lemma tool_clsname_same_modulo (s t : string) :
  same_modulo_case_sep s t -> tool_clsname s = tool_clsname t.
Proof.
  intros H. unfold tool_clsname. rewrite !replace_replace.
  destruct H as [|c d s t Hcd H]; [done|]. cbn.
  destruct (alike_underscored c d Hcd) as [-> _].
  by rewrite (same_modulo_lower s t H).
Qed.

Lemma upper_uppercased (c : ascii) : PyStr.upper c = uppercased c.
Proof. apply Ascii.eqb_eq. revert c. apply forall_ascii. vm_compute. reflexivity. Qed.

Lemma lower_lowercased (c : ascii) : PyStr.lower c = lowercased c.
Proof. apply Ascii.eqb_eq. revert c. apply forall_ascii. vm_compute. reflexivity. Qed.

Lemma tool_clsname_key_of_name (name : string) : tool_clsname name = key_of_name name.
Proof.
  unfold tool_clsname, key_of_name. rewrite replace_replace.
  assert (Hmap : PyStr.map underscored name
          = PyStr.map (fun c => if is_separator c then "_"%char else c) name).
  { induction name as [|c s IH]; [done|]. cbn. by rewrite IH, underscored_separator. }
  rewrite Hmap.
  generalize (PyStr.map (fun c => if is_separator c then "_"%char else c) name).
  intros [|c r]; [reflexivity|]. cbn [PyStr.capitalize].
  rewrite upper_uppercased. f_equal.
  induction r as [|d r IH]; [reflexivity|]. cbn [PyStr.map]. by rewrite IH, lower_lowercased.
Qed.

Lemma mem_map_excluded (f : ascii -> ascii) (letters : string) :
  (forall c, PyStr.mem (f c) letters = false) ->
  forall s d, PyStr.mem d (PyStr.map f s) = true -> PyStr.mem d letters = false.
Proof.
  intros Hf s d. induction s as [|c s IH]; cbn; [done|].
  intros [Heq%Ascii.eqb_eq|Hin]%orb_prop; [by subst d|by apply IH].
Qed.

Lemma upper_not_lowercase (c : ascii) :
  PyStr.mem (PyStr.upper c) lowercase_letters = false.
Proof. apply negb_true_iff. revert c. apply forall_ascii. vm_compute. reflexivity. Qed.

Lemma lower_not_uppercase (c : ascii) :
  PyStr.mem (PyStr.lower c) uppercase_letters = false.
Proof. apply negb_true_iff. revert c. apply forall_ascii. vm_compute. reflexivity. Qed.

Lemma tool_clsname_capitalized (name : string) : capitalized_shape (tool_clsname name).
Proof.
  unfold tool_clsname. rewrite replace_replace.
  destruct name as [|c r]; [done|].
  cbn [PyStr.map PyStr.capitalize capitalized_shape]. split.
  - apply upper_not_lowercase.
  - apply mem_map_excluded, lower_not_uppercase.
Qed.

Lemma length_append (s t : string) :
  String.length (s ++ t) = String.length s + String.length t.
Proof.
  induction s as [|c s IH]; [done|].
  change (S (String.length (s ++ t)) = S (String.length s + String.length t)).
  by rewrite IH.
Qed.

Lemma append_inj_r (s1 s2 t : string) : (s1 ++ t = s2 ++ t)%string -> s1 = s2.
Proof.
  revert s2. induction s1 as [|c s1 IH]; intros [|d s2] H.
  - done.
  - apply (f_equal String.length) in H. rewrite !length_append in H. cbn in H. lia.
  - apply (f_equal String.length) in H. rewrite !length_append in H. cbn in H. lia.
  - change (String c (s1 ++ t) = String d (s2 ++ t))%string in H.
    injection H as -> H. f_equal. by apply IH.
Qed.

Lemma tool_class_inj (n1 n2 : string) : tool_class n1 = tool_class n2 -> n1 = n2.
Proof.
  intros H. apply (f_equal command_name) in H. cbn in H. by apply append_inj_r in H.
Qed.

(** C9: the key under which the class of a configured tool is stored is the
    name with dots and dashes turned into underscores, first character
    upper-cased and the others lower-cased, so that no letter after the first
    is an upper-case one and the first is no lower-case one; two configured
    names that differ only in letter case or in separators have the same
    key, and the entry of that key ends up being the class of the name that
    comes later in sorted order (the last of all the names with that key),
    the class of the earlier name being lost. *)
Theorem registry_key_collision (tools : list string) (n1 n2 : string) :
  n1 ∈ tools -> n2 ∈ tools ->
  same_modulo_case_sep n1 n2 ->
  strict String.le n1 n2 ->
  (forall n3, n3 ∈ tools -> tool_clsname n3 = tool_clsname n2 -> String.le n3 n2) ->
  tool_clsname n1 = key_of_name n1 /\
  tool_clsname n2 = key_of_name n2 /\
  capitalized_shape (key_of_name n1) /\
  key_of_name n1 = key_of_name n2 /\
  (forall m, registry (tool_step m n2) !! key_of_name n1 = Some (tool_class n2)) /\
  tools_registry tools !! key_of_name n1 = Some (tool_class n2) /\
  tools_registry tools !! key_of_name n1 ≠ Some (tool_class n1).
Proof.
  intros H1 H2 Hsame [Hle Hnle] Hmax.
  pose proof (tool_clsname_same_modulo n1 n2 Hsame) as Hkey.
  rewrite <- !tool_clsname_key_of_name.
  assert (Hfinal : tools_registry tools !! tool_clsname n1 = Some (tool_class n2)).
  { rewrite Hkey. by apply tools_registry_max. }
  split; [done|]. split; [done|]. split; [apply tool_clsname_capitalized|].
  repeat split; try done.
  - intros m. cbn. rewrite Hkey. apply lookup_insert_eq.
  - rewrite Hfinal. intros Heq.
    assert (Hn : n2 = n1) by (apply tool_class_inj; congruence).
    subst n2. by apply Hnle.
Qed.

(** C9 at ["G_Energy"] and ["g.energy"], which differ in the case of two
    letters and in the separator. *)
Lemma registry_key_collision_witness :
  tool_clsname "G_Energy" = "G_energy" /\
  tool_clsname "g.energy" = "G_energy" /\
  tools_registry ["g.energy"; "mdrun"; "G_Energy"] !! "G_energy"
  = Some (tool_class "g.energy").
Proof.
  destruct (registry_key_collision ["g.energy"; "mdrun"; "G_Energy"] "G_Energy" "g.energy")
    as (H1 & H2 & _ & _ & _ & H & _); [| | | | |split; [exact H1|split; [exact H2|exact H]]].
  - apply list_elem_of_In. simpl. tauto.
  - apply list_elem_of_In. simpl. tauto.
  - repeat constructor.
  - split; vm_compute; [exact I | tauto].
  - intros n3 Hn3 Hk. apply list_elem_of_In in Hn3. simpl in Hn3.
    destruct Hn3 as [<-|[<-|[<-|[]]]]; vm_compute; try exact I.
    vm_compute in Hk. discriminate.
Defined.

(** The key in the words of the documentation, on a name of mixed case. *)
Example key_of_name_gridmat : key_of_name "GridMAT-MD.pl" = "Gridmat_md_pl".
Proof. reflexivity. Qed.

(** ** The published registry *)

Lemma insert_all_indep {A : Type} (key : A -> string) (val : A -> py_class)
    (l : list A) (x : A) (r r' : gmap string py_class) :
  x ∈ l -> insert_all key val l r !! key x = insert_all key val l r' !! key x.
Proof.
  induction l as [|z l IH] using rev_ind; intros Hx.
  - by apply elem_of_nil in Hx.
  - rewrite !insert_all_snoc. destruct (decide (key z = key x)) as [Heq|Hne].
    + by rewrite <- Heq, !lookup_insert_eq.
    + rewrite !lookup_insert_ne by done.
      apply elem_of_app in Hx as [Hx|Hx%list_elem_of_singleton]; [auto|by subst].
Qed.

Lemma published_tool_is_Some (cfg : config) (name : string) :
  name ∈ load_tools cfg -> is_Some (published cfg !! tool_clsname name).
Proof.
  intros Hin. rewrite published_eq. apply insert_all_is_Some, patched_is_Some.
  apply tools_registry_is_Some. eauto.
Qed.

(** C3, as amended: every configured tool has a class of its name in the
    published registry; that class is the one built for the tool, bound to
    the tool name followed by [_mpi], when no configured tool later in
    sorted order and no configured script has the same class name and the
    class is not one of the two that the patches replace. *)
Theorem tool_classes_published (cfg : config) (name : string) :
  name ∈ load_tools cfg ->
  (exists c, published cfg !! tool_clsname name = Some c /\
             cls_name c = tool_clsname name) /\
  ((forall n, n ∈ load_tools cfg -> tool_clsname n = tool_clsname name -> String.le n name) ->
   (forall rec, rec ∈ load_scripts cfg -> script_clsname rec ≠ tool_clsname name) ->
   tool_clsname name ≠ "G_mindist" -> tool_clsname name ≠ "G_dist" ->
   exists c, published cfg !! tool_clsname name = Some c /\
             c = tool_class name /\
             command_name c = (name ++ "_mpi")%string).
Proof.
  intros Hin. split.
  - destruct (published_tool_is_Some cfg name Hin) as [c Hc].
    exists c. split; [done|]. by apply published_names in Hc.
  - intros Hmax Hscripts H1 H2. exists (tool_class name).
    rewrite published_not_script, patched_other by done.
    split; [|done]. by apply tools_registry_max.
Qed.

(** C3 for [mdrun] in a configuration with the patched tools and a script. *)
Lemma tool_classes_published_witness :
  exists c,
    published {| load_tools := ["mdrun"; "g_dist"; "make_ndx"];
                 load_scripts := [("/opt/GridMAT-MD.pl", "GridMAT_MD", "grid")] |}
      !! "Mdrun" = Some c /\
    c = tool_class "mdrun" /\ command_name c = "mdrun_mpi".
Proof.
  refine (proj2 (tool_classes_published
            {| load_tools := ["mdrun"; "g_dist"; "make_ndx"];
               load_scripts := [("/opt/GridMAT-MD.pl", "GridMAT_MD", "grid")] |}
            "mdrun" _) _ _ _ _).
  - apply list_elem_of_In. simpl. tauto.
  - intros n Hn Hk. apply list_elem_of_In in Hn. simpl in Hn.
    destruct Hn as [<-|[<-|[<-|[]]]]; vm_compute; try exact I;
      vm_compute in Hk; discriminate.
  - intros rec Hrec. apply list_elem_of_In in Hrec. simpl in Hrec.
    destruct Hrec as [<-|[]]. vm_compute. discriminate.
  - vm_compute. discriminate.
  - vm_compute. discriminate.
Defined.

(** C3 as it is stated fails when two configured names share a class
    name: the class of [Trjconv] is the one bound to [trjconv_mpi]. *)
Lemma every_tool_bound_fails :
  ~ every_tool_bound {| load_tools := ["trjconv"; "Trjconv"]; load_scripts := [] |}.
Proof.
  intros H. destruct (H "Trjconv") as (c & Hc & _ & Hcmd).
  - apply list_elem_of_In. simpl. tauto.
  - vm_compute in Hc. injection Hc as <-. vm_compute in Hcmd. discriminate.
Qed.

(** C8, as amended: every configured script has a class of its name in the
    published registry, derived from [Command] and bound to the path of the
    last record of the list with that class name, hence to its own path
    when no later record repeats the class name; which class that is does
    not depend on the configured tools; and the entries under names that no
    script uses are left as the factory loop and the patches made them. *)
Theorem script_classes_published (cfg : config) (rec : string * string * string) :
  rec ∈ load_scripts cfg ->
  (exists rec', rec' ∈ load_scripts cfg /\
                script_clsname rec' = script_clsname rec /\
                published cfg !! script_clsname rec = Some (script_class rec') /\
                cls_name (script_class rec') = script_clsname rec /\
                cls_base (script_class rec') = Command /\
                command_name (script_class rec') = script_path rec') /\
  ((exists l1 l2, load_scripts cfg = l1 ++ rec :: l2 /\
                  forall r, r ∈ l2 -> script_clsname r ≠ script_clsname rec) ->
   exists c, published cfg !! script_clsname rec = Some c /\
             c = script_class rec /\ command_name c = script_path rec) /\
  (forall tools',
     published {| load_tools := tools'; load_scripts := load_scripts cfg |}
       !! script_clsname rec = published cfg !! script_clsname rec) /\
  (forall k, (forall r, r ∈ load_scripts cfg -> script_clsname r ≠ k) ->
             published cfg !! k = patched_registry (load_tools cfg) !! k).
Proof.
  intros Hin. split; [|split; [|split]].
  - destruct (insert_all_some script_clsname script_class _ rec
                (patched_registry (load_tools cfg)) Hin) as (rec' & Hin' & Hk & Hlook).
    exists rec'. rewrite published_eq, script_class_name, script_class_base, script_class_path.
    repeat split; done.
  - intros (l1 & l2 & Hsplit & Hl2). exists (script_class rec).
    rewrite published_eq, Hsplit, script_class_path. split; [|done].
    by apply insert_all_last.
  - intros tools'. rewrite !published_eq. cbn. by apply insert_all_indep.
  - intros k Hk. by apply published_not_script.
Qed.

(** C8 for the first of two scripts, next to a configured tool. *)
Lemma script_classes_published_witness :
  exists c,
    published {| load_tools := ["mdrun"];
                 load_scripts := [("/opt/GridMAT-MD.pl", "GridMAT_MD", "grid");
                                  ("/opt/bin/analyze.py", "Analyze", "analysis")] |}
      !! "GridMAT_MD" = Some c /\
    c = script_class ("/opt/GridMAT-MD.pl", "GridMAT_MD", "grid") /\
    command_name c = "/opt/GridMAT-MD.pl".
Proof.
  refine (proj1 (proj2 (script_classes_published
            {| load_tools := ["mdrun"];
               load_scripts := [("/opt/GridMAT-MD.pl", "GridMAT_MD", "grid");
                                ("/opt/bin/analyze.py", "Analyze", "analysis")] |}
            ("/opt/GridMAT-MD.pl", "GridMAT_MD", "grid") _)) _).
  - apply list_elem_of_In. simpl. tauto.
  - exists [], [("/opt/bin/analyze.py", "Analyze", "analysis")]. split; [reflexivity|].
    intros r Hr. apply list_elem_of_In in Hr. simpl in Hr.
    destruct Hr as [<-|[]]. vm_compute. discriminate.
Defined.

(** C8 as it is stated fails on class names that are used twice: with the
    tool [mdrun] and two scripts both named [Mdrun], the first script is not
    bound to its path and the class of the tool is gone. *)
Lemma scripts_not_independent :
  ~ every_script_bound colliding_config /\ ~ tools_undisturbed colliding_config.
Proof.
  split.
  - intros H. destruct (H ("/opt/first.sh", "Mdrun", "one")) as (c & Hc & Hcmd).
    + apply list_elem_of_In. simpl. tauto.
    + vm_compute in Hc. injection Hc as <-. vm_compute in Hcmd. discriminate.
  - intros H. specialize (H "Mdrun" (tool_class "mdrun")).
    assert (Hp : patched_registry ["mdrun"] !! "Mdrun" = Some (tool_class "mdrun")).
    { vm_compute. reflexivity. }
    apply H in Hp. vm_compute in Hp. discriminate.
Qed.

(** The published name [Make_ndx] never stands for a class under
    [GromacsCommandMultiIndex]: building and running it is the business of
    the command wrapper alone. *)
Lemma published_Make_ndx_base (cfg : config) (c : py_class) :
  published cfg !! "Make_ndx" = Some c -> cls_base c ≠ GromacsCommandMultiIndex.
Proof.
  rewrite published_eq. intros [(rec & _ & _ & ->)|Hp]%insert_all_inv.
  { by rewrite script_class_base. }
  rewrite patched_other in Hp by discriminate.
  by apply tools_registry_inv in Hp as (n & _ & _ & ->).
Qed.

(** The replacement classes keep the bare tool name as their command. *)
Example patched_command_name :
  published example_config !! "G_mindist" = Some G_mindist /\
  command_name G_mindist = "g_mindist" /\
  published example_config !! "Make_ndx" = Some (tool_class "make_ndx") /\
  command_name (tool_class "make_ndx") = "make_ndx_mpi".
Proof. vm_compute. auto. Qed.

(** ** The methods of GromacsCommandMultiIndex *)

Lemma mkstemp_inner_Some (dir prefix suffix : string) (f : gset string)
    (names : list string) (file : string) :
  fst (mkstemp_inner dir prefix suffix f names) = Some file ->
  (file ∉ f) /\ exists name, name ∈ names /\ file = tmp_path dir prefix name suffix.
Proof.
  induction names as [|name names IH]; cbn; [done|].
  case_decide as Hin.
  - intros H. destruct (IH H) as (Hf & n & Hn & Heq).
    split; [done|]. exists n. split; [by right|done].
  - cbn. intros [= <-]. split; [done|]. exists name. split; [by left|done].
Qed.

(** The run of [_fake_multi_ndx] when the index argument has more than one
    entry and [mkstemp] finds a free name. *)
Lemma fake_multi_ndx_several (g : gmap string py_class) (kw : kwargs)
    (items : list pyval) (self : instance) (w : world) (tmp : string) :
  several_indices kw items ->
  drawn w = Some tmp ->
  let self1 := {| inst_class := inst_class self; multi_ndx := Some tmp;
                  orig_ndx := orig_ndx self |} in
  let self2 := {| inst_class := inst_class self; multi_ndx := Some tmp;
                  orig_ndx := Some (dict_get kw "n") |} in
  let w1 := after_mkstemp w tmp in
  _fake_multi_ndx g kw (self, w) =
  match g !! "Make_ndx" with
  | None => (Raise (NameError "Make_ndx"), (self1, w1))
  | Some c =>
      let init_kw := make_ndx_init_kwargs kw (dict_get kw "n") in
      let w2 := record (CoreInit c init_kw) w1 in
      match init_raises w (history w) ({[tmp]} ∪ fs w) c init_kw with
      | Some e => (Raise e, (self1, w2))
      | None =>
          let w3 := record (CoreRun c [] (make_ndx_call_kwargs tmp)) w2 in
          match run_result w (CoreInit c init_kw :: history w) ({[tmp]} ∪ fs w) c []
                  (make_ndx_call_kwargs tmp) with
          | Raise e => (Raise e, (self1, w3))
          | Ok _ => (Ok (<["n" := PyStr tmp]> kw), (self2, w3))
          end
      end
  end.
Proof.
  intros [Hndx Hlen] Hdrawn. cbn zeta.
  unfold _fake_multi_ndx, after_mkstemp. unfold drawn in Hdrawn.
  assert (Hcond : negb (is_None (dict_get kw "n") || type_is_str (dict_get kw "n")) = true)
    by (destruct Hndx as [-> | ->]; reflexivity).
  assert (Hpylen : py_len (dict_get kw "n") = Ok (length items))
    by (destruct Hndx as [-> | ->]; reflexivity).
  rewrite Hcond. unfold bind at 1, lift_res. rewrite Hpylen.
  apply Nat.ltb_lt in Hlen. rewrite Hlen.
  unfold bind, mkstemp, get_world, put_world, ret, raise, set_multi_ndx, get_self,
    put_self, global, core_init, core_run, self_multi_ndx, set_orig_ndx, lift_res.
  cbn. destruct (mkstemp_inner (tmpdir w) "multi_" ".ndx" (fs w) (tmp_names w))
    as [o rest] eqn:Hmk. cbn in Hdrawn. subst o. cbn.
  destruct (g !! "Make_ndx") as [c|]; [|reflexivity]. cbn.
  destruct (init_raises w _ _ c _) as [e|]; [reflexivity|]. cbn.
  destruct (run_result w _ _ c _ _) as [r|e]; reflexivity.
Qed.

Lemma make_ndx_kwargs_lookup (kw : kwargs) (tmp : string) :
  make_ndx_init_kwargs kw (dict_get kw "n") !! "f" = Some (dict_get kw "s") /\
  make_ndx_init_kwargs kw (dict_get kw "n") !! "n" = Some (dict_get kw "n") /\
  make_ndx_call_kwargs tmp !! "o" = Some (PyStr tmp) /\
  make_ndx_call_kwargs tmp !! "input" = Some (PyList [PyStr "q"]).
Proof.
  unfold make_ndx_init_kwargs, make_ndx_call_kwargs. split; [|split; [|split]].
  - apply lookup_insert_eq.
  - rewrite lookup_insert_ne by discriminate. apply lookup_insert_eq.
  - apply lookup_insert_eq.
  - rewrite lookup_insert_ne by discriminate. apply lookup_insert_eq.
Qed.

(** C1: when the index argument is a list or tuple of more than one entry
    (the index files existing, [Make_ndx] being among the classes of the
    module, a free temporary name being found and the helper run
    succeeding), [_fake_multi_ndx] returns the keyword arguments with [n]
    replaced by the path of a file it has just created, named
    [multi_...ndx] in the temporary directory, that did not exist before
    and is none of the given index files; the instance remembers the path,
    and [Make_ndx] was built with [f] the structure file argument [s] and
    [n] the whole original index argument, and run with the new path as
    output. *)
Theorem fake_multi_ndx_merges (g : gmap string py_class) (kw : kwargs)
    (items : list pyval) (self : instance) (w : world) (tmp : string)
    (c : py_class) (r : Z * string * string) :
  several_indices kw items ->
  (forall p, PyStr p ∈ items -> p ∈ fs w) ->
  g !! "Make_ndx" = Some c ->
  drawn w = Some tmp ->
  make_ndx_outcome w c kw tmp = Ok r ->
  exists self' w',
    _fake_multi_ndx g kw (self, w) = (Ok (<["n" := PyStr tmp]> kw), (self', w')) /\
    multi_ndx self' = Some tmp /\
    orig_ndx self' = Some (dict_get kw "n") /\
    (exists name, name ∈ tmp_names w /\
                  tmp = (tmpdir w ++ "/" ++ "multi_" ++ name ++ ".ndx")%string) /\
    (tmp ∉ fs w) /\
    fs w' = {[tmp]} ∪ fs w /\
    (PyStr tmp ∉ items) /\
    history w' = make_ndx_events c kw tmp ++ history w /\
    make_ndx_init_kwargs kw (dict_get kw "n") !! "f" = Some (dict_get kw "s") /\
    make_ndx_init_kwargs kw (dict_get kw "n") !! "n" = Some (dict_get kw "n") /\
    make_ndx_call_kwargs tmp !! "o" = Some (PyStr tmp).
Proof.
  intros Hseveral Hexist Hglobal Hdrawn Hout.
  pose proof (fake_multi_ndx_several g kw items self w tmp Hseveral Hdrawn) as Hrun.
  cbn zeta in Hrun. rewrite Hglobal in Hrun. unfold make_ndx_outcome in Hout.
  destruct (init_raises w _ _ c _) as [e|]; [discriminate|].
  rewrite Hout in Hrun.
  destruct (mkstemp_inner_Some _ _ _ _ _ _ Hdrawn) as (Hfresh & name & Hname & Htmp).
  destruct (make_ndx_kwargs_lookup kw tmp) as (Hf & Hn & Ho & _).
  eexists _, _. split; [exact Hrun|].
  repeat split; try done.
  - exists name. split; [done|]. exact Htmp.
  - intros Hin. apply Hfresh. by apply Hexist.
Qed.

(** C2, as amended: when the index argument is missing, [None], a single
    file name whose type is exactly [str], or a value with a length of at
    most one (a list or tuple of at most one entry), [_fake_multi_ndx]
    returns the keyword arguments as they are and changes nothing: no file
    is created, nothing is remembered on the instance and no command is
    run. *)
Theorem fake_multi_ndx_single (g : gmap string py_class) (kw : kwargs) (st : state) :
  single_index kw ->
  _fake_multi_ndx g kw st = (Ok kw, st).
Proof.
  unfold single_index, _fake_multi_ndx, dict_get.
  intros [H|[H|[[s H]|(v & n & H & Hlen & Hle)]]]; rewrite H; try reflexivity.
  destruct (negb (is_None v || type_is_str v)); [|reflexivity].
  unfold bind, lift_res. rewrite Hlen.
  destruct n as [|[|n]]; try reflexivity; lia.
Qed.

(** C10: when the index argument is neither [None] nor a string and has no
    length, as an integer has none, [_fake_multi_ndx] raises a [TypeError]
    and so do the initialiser and [run], with nothing done: the command
    wrapper is not reached and no file is created. *)
Theorem fake_multi_ndx_no_len (g : gmap string py_class) (kw : kwargs) (st : state) :
  is_None (dict_get kw "n") = false ->
  type_is_str (dict_get kw "n") = false ->
  (forall n, py_len (dict_get kw "n") <> Ok n) ->
  exists msg,
    _fake_multi_ndx g kw st = (Raise (TypeError msg), st) /\
    __init__ g kw st = (Raise (TypeError msg), st) /\
    forall args, run g args kw st = (Raise (TypeError msg), st).
Proof.
  intros Hnone Hstr Hlen.
  unfold __init__, run, bind at 1 3. unfold _fake_multi_ndx.
  rewrite Hnone, Hstr. cbn. unfold bind, lift_res.
  destruct (dict_get kw "n") as [|b|z|s|s|cls s|l|l]; cbn in *;
    try discriminate; try (by destruct (Hlen (length l)));
    try (by destruct (Hlen (String.length s)));
    eexists; repeat split.
Qed.

(** C7: when one of the two calls on [Make_ndx] raises, the same exception
    comes out of [_fake_multi_ndx], of the initialiser and of [run]; the
    command wrapper has by then only seen the calls on [Make_ndx], and the
    calls of the instance itself are not made. *)
Theorem make_ndx_failure_propagates (g : gmap string py_class) (kw : kwargs)
    (items : list pyval) (self : instance) (w : world) (tmp : string)
    (c : py_class) (e : exn) :
  several_indices kw items ->
  g !! "Make_ndx" = Some c ->
  drawn w = Some tmp ->
  make_ndx_outcome w c kw tmp = Raise e ->
  exists self' w',
    _fake_multi_ndx g kw (self, w) = (Raise e, (self', w')) /\
    __init__ g kw (self, w) = (Raise e, (self', w')) /\
    (forall args, run g args kw (self, w) = (Raise e, (self', w'))) /\
    (exists evs, history w' = evs ++ history w /\
                 forall ev, ev ∈ evs -> ev ∈ make_ndx_events c kw tmp).
Proof.
  intros Hseveral Hglobal Hdrawn Hout.
  pose proof (fake_multi_ndx_several g kw items self w tmp Hseveral Hdrawn) as Hrun.
  cbn zeta in Hrun. rewrite Hglobal in Hrun. unfold make_ndx_outcome in Hout.
  unfold __init__, run, bind.
  destruct (init_raises w _ _ c _) as [e'|].
  - injection Hout as ->. rewrite Hrun. eexists _, _. repeat split.
    exists [CoreInit c (make_ndx_init_kwargs kw (dict_get kw "n"))]. split; [reflexivity|].
    intros ev Hev%list_elem_of_singleton. subst ev. unfold make_ndx_events.
    apply list_elem_of_In. simpl. tauto.
  - rewrite Hout in Hrun. rewrite Hrun. eexists _, _. repeat split.
    exists (make_ndx_events c kw tmp). split; [reflexivity|]. auto.
Qed.

(** C1 for an instance of [G_mindist] given two index files. *)
Lemma fake_multi_ndx_merges_witness :
  exists self' w',
    _fake_multi_ndx example_globals two_indices two_names_state
    = (Ok (<["n" := PyStr "/tmp/multi_k3x9Qa.ndx"]> two_indices), (self', w')) /\
    multi_ndx self' = Some "/tmp/multi_k3x9Qa.ndx" /\
    history w' = make_ndx_events (tool_class "make_ndx") two_indices "/tmp/multi_k3x9Qa.ndx".
Proof.
  destruct (fake_multi_ndx_merges example_globals two_indices
              [PyStr "a.ndx"; PyStr "b.ndx"] (fresh_instance G_mindist)
              (quiet_world ["a.ndx"; "b.ndx"; "md.tpr"] ["k3x9Qa"; "Zp0w2L"])
              "/tmp/multi_k3x9Qa.ndx" (tool_class "make_ndx") (0%Z, "", ""))
    as (self' & w' & Hrun & Hpath & _ & _ & _ & _ & _ & Hhist & _).
  - split; [left; reflexivity | simpl; lia].
  - intros p Hp. apply list_elem_of_In in Hp. simpl in Hp.
    destruct Hp as [[= <-]|[[= <-]|[]]]; apply (bool_decide_unpack _); vm_compute; exact I.
  - vm_compute. reflexivity.
  - vm_compute. reflexivity.
  - reflexivity.
  - exists self', w'. split; [exact Hrun|]. split; [exact Hpath|].
    rewrite Hhist. apply app_nil_r.
Defined.

(** C2 for a single index file. *)
Lemma fake_multi_ndx_single_witness :
  _fake_multi_ndx example_globals (<["n" := PyStr "index.ndx"]> ∅) two_names_state
  = (Ok (<["n" := PyStr "index.ndx"]> ∅), two_names_state).
Proof.
  apply fake_multi_ndx_single. right. right. left. exists "index.ndx". reflexivity.
Defined.

(** C10 for the index argument [3]. *)
Lemma fake_multi_ndx_no_len_witness :
  exists msg,
    _fake_multi_ndx example_globals (<["n" := PyInt 3]> ∅) two_names_state
    = (Raise (TypeError msg), two_names_state) /\
    __init__ example_globals (<["n" := PyInt 3]> ∅) two_names_state
    = (Raise (TypeError msg), two_names_state) /\
    forall args, run example_globals args (<["n" := PyInt 3]> ∅) two_names_state
                 = (Raise (TypeError msg), two_names_state).
Proof.
  apply fake_multi_ndx_no_len.
  - reflexivity.
  - reflexivity.
  - intros n. vm_compute. discriminate.
Defined.

(** C7 for a run of [make_ndx] that ends in a [GromacsError]. *)
Lemma make_ndx_failure_propagates_witness :
  exists self' w',
    __init__ example_globals two_indices
      (fresh_instance G_mindist, failing_world) =
    (Raise (GromacsError 1 "make_ndx failed"), (self', w')).
Proof.
  destruct (make_ndx_failure_propagates example_globals two_indices
              [PyStr "a.ndx"; PyStr "b.ndx"] (fresh_instance G_mindist)
              failing_world "/tmp/multi_k3x9Qa.ndx" (tool_class "make_ndx")
              (GromacsError 1 "make_ndx failed"))
    as (self' & w' & _ & Hinit & _).
  - split; [left; reflexivity | simpl; lia].
  - vm_compute. reflexivity.
  - vm_compute. reflexivity.
  - reflexivity.
  - exists self', w'. exact Hinit.
Defined.

Lemma unlink_gmx_raises_OSError (path : string) (st : state) (e : exn) (st' : state) :
  unlink_gmx path st = (Raise e, st') -> st' = st /\ exists n, e = OSError n.
Proof.
  unfold unlink_gmx, bind, get_world, put_world, raise. cbn.
  destruct (unlink_refused (snd st) path) as [n|].
  - intros [= <- <-]. eauto.
  - case_decide; [discriminate|]. intros [= <- <-]. eauto.
Qed.

(** The handler of [__del__] lets the other exceptions through. *)
Example try_pass_selective (st : state) :
  try_pass del_caught (raise (TypeError "unlink")) st = (Raise (TypeError "unlink"), st).
Proof. reflexivity. Qed.

(** C4: [__del__] never raises.  An instance that never created a
    temporary file is left alone with the world; a deletion that the system
    refuses, or whose file is gone already, is passed over in silence and
    changes nothing; otherwise the remembered file is removed. *)
Theorem del_never_raises (st : state) :
  exists st',
    __del__ st = (Ok tt, st') /\
    fst st' = fst st /\
    match multi_ndx (fst st) with
    | None => st' = st
    | Some path =>
        match unlink_refused (snd st) path with
        | Some _ => st' = st
        | None => fs (snd st') = fs (snd st) ∖ {[path]} /\
                  (path ∉ fs (snd st) -> st' = st)
        end
    end.
Proof.
  destruct st as [self w].
  unfold __del__, try_pass, bind, self_multi_ndx, get_self, unlink_gmx, get_world,
    put_world, raise, ret. cbn.
  destruct (multi_ndx self) as [path|]; cbn; [|by eexists].
  destruct (unlink_refused w path) as [n|]; cbn; [by eexists|].
  case_decide as Hin; cbn.
  - eexists. split; [reflexivity|]. cbn. done.
  - eexists. split; [reflexivity|]. cbn. split; [done|]. split; [|done].
    apply set_eq. intros x. rewrite elem_of_difference, elem_of_singleton.
    split; [|tauto]. intros Hx. split; [done|]. by intros ->.
Qed.

(** C5, where the code departs from it: an instance of [G_mindist] built
    with two index files and run once more with two index files creates two
    temporary files and remembers the second only; once it is destroyed,
    without any error, the first one is still on disk. *)
Theorem temp_file_leaks :
  fst (built_run_destroyed two_names_state) = Ok tt /\
  ("/tmp/multi_k3x9Qa.ndx" ∉ fs (snd two_names_state)) /\
  ("/tmp/multi_k3x9Qa.ndx" ∈ fs (snd (snd (built_run_destroyed two_names_state)))) /\
  ("/tmp/multi_Zp0w2L.ndx" ∉ fs (snd (snd (built_run_destroyed two_names_state)))).
Proof.
  split; [vm_compute; reflexivity|].
  split; [apply (bool_decide_eq_false_1 _); vm_compute; reflexivity|].
  split; [apply (bool_decide_unpack _); vm_compute; exact I|].
  apply (bool_decide_eq_false_1 _). vm_compute. reflexivity.
Qed.

(** ** More on the registry and the module doc string *)

Lemma append_assoc (s t u : string) : ((s ++ t) ++ u = s ++ (t ++ u))%string.
Proof.
  induction s as [|c s IH]; [done|].
  change (String c ((s ++ t) ++ u) = String c (s ++ (t ++ u)))%string. by rewrite IH.
Qed.

Lemma append_empty_r (s : string) : (s ++ "" = s)%string.
Proof.
  induction s as [|c s IH]; [done|].
  change (String c (s ++ "") = String c s)%string. by rewrite IH.
Qed.

Lemma module_doc_tool_steps (l : list string) (m : module_state) :
  module_doc (fold_left tool_step l m) = (module_doc m ++ doc_entries l)%string.
Proof.
  revert m. induction l as [|x l IH]; intros m; cbn [fold_left doc_entries].
  - by rewrite append_empty_r.
  - rewrite IH. cbn [tool_step module_doc]. by rewrite append_assoc.
Qed.

Lemma module_doc_patch (key : string) (cls : py_class) (m : module_state) :
  module_doc (patch key cls m) = module_doc m.
Proof. unfold patch. by destruct (registry m !! key). Qed.

Lemma module_doc_scripts (l : list (string * string * string)) (m : module_state) :
  module_doc (register_scripts l m) = module_doc m.
Proof.
  revert m. unfold register_scripts.
  induction l as [|[[name clsname] doc] l IH]; intros m; [done|]. cbn. by rewrite IH.
Qed.

Lemma length_doc_entries (names : list string) :
  String.length (doc_entries names)
  = sum_list_with (fun n => 26 + String.length (tool_clsname n)) names.
Proof.
  induction names as [|n names IH]; [done|]. cbn [doc_entries sum_list_with].
  rewrite length_append, IH. unfold _generate_sphinx_class_string.
  rewrite !length_append. cbn. lia.
Qed.

(** X1: the module doc string of the loaded module is the initial doc
    string followed by one entry per configured tool name, in sorted order,
    repeated names and names with the same class name included; the patches
    and the scripts add nothing to it. *)
Theorem module_doc_loaded (doc0 : string) (cfg : config) :
  module_doc (load_module doc0 cfg)
  = (doc0 ++ doc_entries (PyStr.sorted (load_tools cfg)))%string /\
  String.length (module_doc (load_module doc0 cfg))
  = String.length doc0
    + sum_list_with (fun n => 26 + String.length (tool_clsname n)) (load_tools cfg) /\
  module_doc (load_module doc0 {| load_tools := load_tools cfg; load_scripts := [] |})
  = module_doc (load_module doc0 cfg).
Proof.
  assert (Hdoc : forall scripts,
    module_doc (load_module doc0 {| load_tools := load_tools cfg; load_scripts := scripts |})
    = (doc0 ++ doc_entries (PyStr.sorted (load_tools cfg)))%string).
  { intros scripts. unfold load_module, patch_tools, generate_tools. cbn.
    by rewrite module_doc_scripts, !module_doc_patch, module_doc_tool_steps. }
  assert (Hcfg : module_doc (load_module doc0 cfg)
    = (doc0 ++ doc_entries (PyStr.sorted (load_tools cfg)))%string).
  { destruct cfg as [tools scripts]. apply Hdoc. }
  split; [done|]. split.
  - rewrite Hcfg, length_append, length_doc_entries. f_equal.
    unfold PyStr.sorted. by rewrite (merge_sort_Permutation String.le (load_tools cfg)).
  - by rewrite Hdoc, Hcfg.
Qed.

Lemma insert_all_lookup_is_Some {A : Type} (key : A -> string) (val : A -> py_class)
    (l : list A) (r : gmap string py_class) (k : string) :
  is_Some (insert_all key val l r !! k) <->
  is_Some (r !! k) \/ exists x, x ∈ l /\ key x = k.
Proof.
  split.
  - intros [c [(x & Hx & Hk & _)|Hr]%insert_all_inv]; [right; eauto|left; by eexists].
  - intros [Hr|(x & Hx & <-)]; [by apply insert_all_is_Some|].
    destruct (insert_all_some key val l x r Hx) as (y & _ & _ & Hlook). by eexists.
Qed.

Lemma published_is_Some (cfg : config) (k : string) :
  is_Some (published cfg !! k) <->
  (exists n, n ∈ load_tools cfg /\ tool_clsname n = k) \/
  (exists rec, rec ∈ load_scripts cfg /\ script_clsname rec = k).
Proof.
  rewrite published_eq, insert_all_lookup_is_Some, patched_is_Some.
  by rewrite tools_registry_is_Some.
Qed.

(** X2: the exported names are, without repetition, the class names of
    the configured tools and the class names of the configured scripts, and
    nothing else; with nothing configured nothing is exported. *)
Theorem exported_names (cfg : config) :
  NoDup (__all__ cfg) /\
  (forall k, k ∈ __all__ cfg <->
     (exists n, n ∈ load_tools cfg /\ tool_clsname n = k) \/
     (exists rec, rec ∈ load_scripts cfg /\ script_clsname rec = k)) /\
  (load_tools cfg = [] -> load_scripts cfg = [] -> __all__ cfg = []) /\
  length (__all__ cfg) <= length (load_tools cfg) + length (load_scripts cfg).
Proof.
  assert (Hin : forall k, k ∈ __all__ cfg <->
     (exists n, n ∈ load_tools cfg /\ tool_clsname n = k) \/
     (exists rec, rec ∈ load_scripts cfg /\ script_clsname rec = k)).
  { intros k. unfold __all__. by rewrite elem_of_elements, elem_of_dom, published_is_Some. }
  assert (Hnodup : NoDup (__all__ cfg)) by (unfold __all__; apply NoDup_elements).
  split; [done|]. split; [done|]. split.
  - intros Ht Hs. destruct (__all__ cfg) as [|k l] eqn:Hall; [done|].
    assert (Hk : k ∈ k :: l) by by left.
    apply Hin in Hk as [(n & Hn & _)|(rec & Hrec & _)].
    + rewrite Ht in Hn. by apply elem_of_nil in Hn.
    + rewrite Hs in Hrec. by apply elem_of_nil in Hrec.
  - assert (Hle : length (__all__ cfg)
              <= length ((tool_clsname <$> load_tools cfg)
                         ++ (script_clsname <$> load_scripts cfg)));
      [|by rewrite length_app, !length_fmap in Hle].
    apply submseteq_length, NoDup_submseteq; [done|].
    intros k [(n & Hn & <-)|(rec & Hrec & <-)]%Hin; apply elem_of_app.
    + left. by apply list_elem_of_fmap_2.
    + right. by apply list_elem_of_fmap_2.
Qed.

(** X3: every class of the published registry sits under its own name and
    is accounted for by the configuration: it is the class of a configured
    script of that name, or one of the two replacement classes under its
    name with a configured tool of that class name, or the class the factory
    loop builds for a configured tool of that class name.  The only classes
    under [GromacsCommandMultiIndex] are the two replacement classes. *)
Theorem published_origin (cfg : config) (k : string) (c : py_class) :
  published cfg !! k = Some c ->
  cls_name c = k /\
  ((exists rec, rec ∈ load_scripts cfg /\ script_clsname rec = k /\
                c = script_class rec /\ cls_base c = Command) \/
   (k = "G_mindist" /\ c = G_mindist /\
    exists n, n ∈ load_tools cfg /\ tool_clsname n = "G_mindist") \/
   (k = "G_dist" /\ c = G_dist /\
    exists n, n ∈ load_tools cfg /\ tool_clsname n = "G_dist") \/
   (k ≠ "G_mindist" /\ k ≠ "G_dist" /\
    exists n, n ∈ load_tools cfg /\ tool_clsname n = k /\ c = tool_class n /\
              cls_base c = GromacsCommand)) /\
  (cls_base c = GromacsCommandMultiIndex -> c = G_mindist \/ c = G_dist).
Proof.
  intros Hlook.
  assert (Horigin :
    (exists rec, rec ∈ load_scripts cfg /\ script_clsname rec = k /\
                 c = script_class rec /\ cls_base c = Command) \/
    (k = "G_mindist" /\ c = G_mindist /\
     exists n, n ∈ load_tools cfg /\ tool_clsname n = "G_mindist") \/
    (k = "G_dist" /\ c = G_dist /\
     exists n, n ∈ load_tools cfg /\ tool_clsname n = "G_dist") \/
    (k ≠ "G_mindist" /\ k ≠ "G_dist" /\
     exists n, n ∈ load_tools cfg /\ tool_clsname n = k /\ c = tool_class n /\
               cls_base c = GromacsCommand)).
  { pose proof Hlook as Hp. rewrite published_eq in Hp.
    apply insert_all_inv in Hp as [(rec & Hrec & Hk & ->)|Hp].
    { left. exists rec. by rewrite script_class_base. }
    right. destruct (decide (k = "G_mindist")) as [->|H1].
    { left. rewrite patched_G_mindist in Hp.
      destruct (tools_registry _ !! "G_mindist") as [c'|] eqn:Ht; [|done].
      split; [done|]. split; [by simplify_eq|].
      apply tools_registry_is_Some. rewrite Ht. by eexists. }
    right. destruct (decide (k = "G_dist")) as [->|H2].
    { left. rewrite patched_G_dist in Hp.
      destruct (tools_registry _ !! "G_dist") as [c'|] eqn:Ht; [|done].
      split; [done|]. split; [by simplify_eq|].
      apply tools_registry_is_Some. rewrite Ht. by eexists. }
    right. rewrite patched_other in Hp by done.
    apply tools_registry_inv in Hp as (n & Hn & Hk & ->).
    split; [done|]. split; [done|]. by exists n. }
  split; [by apply published_names in Hlook|]. split; [done|].
  intros Hbase.
  destruct Horigin as [(rec & _ & _ & _ & Hb)|[(_ & -> & _)|[(_ & -> & _)|(_ & _ & n & _ & _ & _ & Hb)]]];
    [congruence|by left|by right|congruence].
Qed.

(** X3 for the class of [mdrun] in the example configuration. *)
Lemma published_origin_witness :
  cls_name (tool_class "mdrun") = "Mdrun" /\
  (cls_base (tool_class "mdrun") = GromacsCommandMultiIndex ->
   tool_class "mdrun" = G_mindist \/ tool_class "mdrun" = G_dist).
Proof.
  destruct (published_origin example_config "Mdrun" (tool_class "mdrun")) as (H1 & _ & H2).
  - vm_compute. reflexivity.
  - split; [exact H1 | exact H2].
Defined.

Lemma sorted_permutation (tools tools' : list string) :
  tools ≡ₚ tools' -> PyStr.sorted tools = PyStr.sorted tools'.
Proof.
  intros Hperm. unfold PyStr.sorted.
  apply (StronglySorted_unique String.le).
  - apply (StronglySorted_merge_sort String.le).
  - apply (StronglySorted_merge_sort String.le).
  - by rewrite !merge_sort_Permutation.
Qed.

(** X4: the order in which the tools are configured does not matter: two
    tool lists that are rearrangements of one another give the same
    registry and the same module doc string. *)
Theorem tools_order_irrelevant (tools tools' : list string)
    (scripts : list (string * string * string)) (doc0 : string) :
  tools ≡ₚ tools' ->
  load_module doc0 {| load_tools := tools; load_scripts := scripts |}
  = load_module doc0 {| load_tools := tools'; load_scripts := scripts |}.
Proof.
  intros Hperm. unfold load_module, generate_tools. cbn [load_tools load_scripts].
  by rewrite (sorted_permutation tools tools' Hperm).
Qed.

(** X4 for three tools configured in two orders. *)
Lemma tools_order_irrelevant_witness :
  load_module "" {| load_tools := ["mdrun"; "g_dist"; "make_ndx"]; load_scripts := [] |}
  = load_module "" {| load_tools := ["g_dist"; "make_ndx"; "mdrun"]; load_scripts := [] |}.
Proof.
  apply tools_order_irrelevant.
  change (["mdrun"; "g_dist"; "make_ndx"] ≡ₚ ["g_dist"; "make_ndx"] ++ ["mdrun"]).
  apply (Permutation_cons_append ["g_dist"; "make_ndx"] "mdrun").
Defined.

Lemma insert_all_NoDup {A : Type} (key : A -> string) (val : A -> py_class)
    (l : list A) (x : A) (r : gmap string py_class) :
  NoDup (key <$> l) -> x ∈ l -> insert_all key val l r !! key x = Some (val x).
Proof.
  intros Hnd Hx. apply list_elem_of_split in Hx as (l1 & l2 & ->).
  apply insert_all_last. intros y Hy Hk.
  rewrite fmap_app, fmap_cons in Hnd.
  apply NoDup_app in Hnd as (_ & _ & Hnd). apply NoDup_cons in Hnd as [Hnot _].
  apply Hnot. rewrite <- Hk. by apply list_elem_of_fmap_2.
Qed.

Lemma insert_all_permutation {A : Type} (key : A -> string) (val : A -> py_class)
    (l l' : list A) (r : gmap string py_class) :
  NoDup (key <$> l) -> l ≡ₚ l' -> insert_all key val l r = insert_all key val l' r.
Proof.
  intros Hnd Hperm. apply map_eq. intros k.
  assert (Hnd' : NoDup (key <$> l')) by by rewrite <- Hperm.
  destruct (decide (k ∈ key <$> l)) as [Hin|Hout].
  - apply list_elem_of_fmap in Hin as (x & -> & Hx).
    rewrite !insert_all_NoDup; try done. by rewrite <- Hperm.
  - rewrite !insert_all_other; [done| |].
    + intros x Hx <-. apply Hout. apply list_elem_of_fmap_2. by rewrite Hperm.
    + intros x Hx <-. apply Hout. by apply list_elem_of_fmap_2.
Qed.

(** X5: when no two configured scripts share a class name, the order of the
    scripts does not matter either: rearranging them gives the same
    registry. *)
Theorem scripts_order_irrelevant (tools : list string)
    (scripts scripts' : list (string * string * string)) :
  NoDup (script_clsname <$> scripts) ->
  scripts ≡ₚ scripts' ->
  published {| load_tools := tools; load_scripts := scripts |}
  = published {| load_tools := tools; load_scripts := scripts' |}.
Proof.
  intros Hnd Hperm. rewrite !published_eq. cbn. by apply insert_all_permutation.
Qed.

(** X5 for two scripts. *)
Lemma scripts_order_irrelevant_witness :
  published {| load_tools := ["mdrun"];
               load_scripts := [("/opt/GridMAT-MD.pl", "GridMAT_MD", "grid");
                                ("/opt/bin/analyze.py", "Analyze", "analysis")] |}
  = published {| load_tools := ["mdrun"];
                 load_scripts := [("/opt/bin/analyze.py", "Analyze", "analysis");
                                  ("/opt/GridMAT-MD.pl", "GridMAT_MD", "grid")] |}.
Proof.
  apply scripts_order_irrelevant.
  - apply (bool_decide_unpack _). vm_compute. exact I.
  - apply perm_swap.
Defined.

Lemma length_map (f : ascii -> ascii) (s : string) :
  String.length (PyStr.map f s) = String.length s.
Proof. induction s as [|c s IH]; cbn; [done|]. by rewrite IH. Qed.

Lemma mem_map_false (f : ascii -> ascii) (c : ascii) (s : string) :
  (forall d, Ascii.eqb c (f d) = false) -> PyStr.mem c (PyStr.map f s) = false.
Proof. intros Hf. induction s as [|d s IH]; cbn; [done|]. by rewrite Hf, IH. Qed.

Lemma mem_cons (c d : ascii) (s : string) :
  PyStr.mem c (String d s) = Ascii.eqb c d || PyStr.mem c s.
Proof. reflexivity. Qed.

Lemma map_map (f g : ascii -> ascii) (s : string) :
  PyStr.map f (PyStr.map g s) = PyStr.map (fun c => f (g c)) s.
Proof. induction s as [|c s IH]; cbn; [done|]. by rewrite IH. Qed.

Lemma map_ext (f g : ascii -> ascii) (s : string) :
  (forall c, f c = g c) -> PyStr.map f s = PyStr.map g s.
Proof. intros Hfg. induction s as [|c s IH]; cbn; [done|]. by rewrite Hfg, IH. Qed.

Lemma tool_clsname_chars (name : string) :
  tool_clsname name =
  match name with
  | EmptyString => EmptyString
  | String c r =>
      String (PyStr.upper (underscored c))
        (PyStr.map (fun d => PyStr.lower (underscored d)) r)
  end.
Proof.
  unfold tool_clsname. rewrite replace_replace.
  destruct name as [|c r]; [done|]. cbn. by rewrite map_map.
Qed.

Lemma clsname_char_facts (c : ascii) :
  Ascii.eqb "." (PyStr.upper (underscored c)) = false /\
  Ascii.eqb "-" (PyStr.upper (underscored c)) = false /\
  Ascii.eqb "." (PyStr.lower (underscored c)) = false /\
  Ascii.eqb "-" (PyStr.lower (underscored c)) = false /\
  PyStr.upper (underscored (PyStr.upper (underscored c))) = PyStr.upper (underscored c) /\
  PyStr.lower (underscored (PyStr.lower (underscored c))) = PyStr.lower (underscored c).
Proof.
  assert (Hall : forall c,
    negb (Ascii.eqb "." (PyStr.upper (underscored c)))
    && negb (Ascii.eqb "-" (PyStr.upper (underscored c)))
    && negb (Ascii.eqb "." (PyStr.lower (underscored c)))
    && negb (Ascii.eqb "-" (PyStr.lower (underscored c)))
    && Ascii.eqb (PyStr.upper (underscored (PyStr.upper (underscored c))))
                 (PyStr.upper (underscored c))
    && Ascii.eqb (PyStr.lower (underscored (PyStr.lower (underscored c))))
                 (PyStr.lower (underscored c)) = true).
  { apply forall_ascii. vm_compute. reflexivity. }
  specialize (Hall c).
  repeat (apply andb_prop in Hall as [Hall ?]).
  repeat split; try (by apply negb_true_iff); by apply Ascii.eqb_eq.
Qed.

(** X6: the class name made from a tool name is as long as the name and
    holds neither a dot nor a dash; making a class name from a class name
    changes nothing. *)
Theorem tool_clsname_shape (name : string) :
  String.length (tool_clsname name) = String.length name /\
  PyStr.mem "." (tool_clsname name) = false /\
  PyStr.mem "-" (tool_clsname name) = false /\
  tool_clsname (tool_clsname name) = tool_clsname name.
Proof.
  rewrite (tool_clsname_chars (tool_clsname name)), (tool_clsname_chars name).
  destruct name as [|c r]; [done|].
  destruct (clsname_char_facts c) as (Hdu & Hmu & _ & _ & Hu & _).
  split; [cbn [String.length]; by rewrite length_map|].
  split; [|split].
  - rewrite mem_cons, Hdu. apply mem_map_false. intros d. apply clsname_char_facts.
  - rewrite mem_cons, Hmu. apply mem_map_false. intros d. apply clsname_char_facts.
  - rewrite Hu, map_map. f_equal. apply map_ext. intros d. apply clsname_char_facts.
Qed.

Lemma registry_patch_tools (m : module_state) (k : string) :
  registry (patch_tools m) !! k =
  if decide (k = "G_dist") then
    match registry m !! "G_dist" with Some _ => Some G_dist | None => None end
  else if decide (k = "G_mindist") then
    match registry m !! "G_mindist" with Some _ => Some G_mindist | None => None end
  else registry m !! k.
Proof.
  unfold patch_tools. rewrite registry_patch. case_decide as Hd.
  - rewrite registry_patch. by rewrite decide_False by discriminate.
  - by rewrite registry_patch.
Qed.

Lemma module_state_eq (m1 m2 : module_state) :
  registry m1 = registry m2 -> module_doc m1 = module_doc m2 -> m1 = m2.
Proof. destruct m1, m2. cbn. by intros -> ->. Qed.

(** X7: the patch step adds no name to the registry and removes none,
    changes no entry besides [G_mindist] and [G_dist], leaves the module doc
    string alone, and has nothing more to do when it is applied again. *)
Theorem patch_tools_frame (m : module_state) :
  (forall k, is_Some (registry (patch_tools m) !! k) <-> is_Some (registry m !! k)) /\
  (forall k, k ≠ "G_mindist" -> k ≠ "G_dist" ->
             registry (patch_tools m) !! k = registry m !! k) /\
  module_doc (patch_tools m) = module_doc m /\
  patch_tools (patch_tools m) = patch_tools m.
Proof.
  split; [|split; [|split]].
  - intros k. rewrite registry_patch_tools. repeat case_decide; subst; try done.
    + destruct (registry m !! "G_dist"); split; intros Hs; done.
    + destruct (registry m !! "G_mindist"); split; intros Hs; done.
  - intros k H1 H2. rewrite registry_patch_tools. by rewrite !decide_False by done.
  - unfold patch_tools. by rewrite !module_doc_patch.
  - apply module_state_eq.
    + apply map_eq. intros k. rewrite (registry_patch_tools (patch_tools m) k).
      destruct (decide (k = "G_dist")) as [->|Hd].
      { rewrite (registry_patch_tools m "G_dist"), decide_True by done.
        by destruct (registry m !! "G_dist"). }
      destruct (decide (k = "G_mindist")) as [->|Hm]; [|done].
      rewrite (registry_patch_tools m "G_mindist"), decide_False by discriminate.
      rewrite decide_True by done. by destruct (registry m !! "G_mindist").
    + unfold patch_tools. by rewrite !module_doc_patch.
Qed.

(** ** More on the methods *)

(** Where a call with several index files leaves the instance and the
    world, however it ends. *)
Lemma fake_multi_ndx_several_state (g : gmap string py_class) (kw : kwargs)
    (items : list pyval) (self : instance) (w : world) (tmp : string)
    (r : res kwargs) (st1 : state) :
  several_indices kw items ->
  drawn w = Some tmp ->
  _fake_multi_ndx g kw (self, w) = (r, st1) ->
  multi_ndx (fst st1) = Some tmp /\
  inst_class (fst st1) = inst_class self /\
  fs (snd st1) = {[tmp]} ∪ fs w /\
  unlink_refused (snd st1) = unlink_refused w /\
  exists evs, history (snd st1) = evs ++ history w.
Proof.
  intros Hseveral Hdrawn.
  rewrite (fake_multi_ndx_several g kw items self w tmp Hseveral Hdrawn). cbn zeta.
  destruct (g !! "Make_ndx") as [c|].
  - destruct (init_raises w _ _ c _) as [e|].
    + intros [= <- <-]. repeat split. by eexists [_].
    + destruct (run_result w _ _ c _ _) as [res|e]; intros [= <- <-]; repeat split;
        by eexists [_; _].
  - intros [= <- <-]. repeat split. by exists [].
Qed.

Lemma mkstemp_inner_None (dir prefix suffix : string) (f : gset string)
    (names : list string) :
  (forall name, name ∈ names -> tmp_path dir prefix name suffix ∈ f) ->
  mkstemp_inner dir prefix suffix f names = (None, []).
Proof.
  induction names as [|name names IH]; intros Hall; cbn; [done|].
  rewrite decide_True by (apply Hall; by left).
  apply IH. intros n Hn. apply Hall. by right.
Qed.

(** X8: when the configuration yields no class [Make_ndx], a call with
    several index files ends in [NameError], out of [_fake_multi_ndx], the
    initialiser and [run] alike; by then the temporary file is created and
    remembered on the instance, and no command has been run. *)
Theorem missing_make_ndx (cfg : config) (kw : kwargs) (items : list pyval)
    (self : instance) (w : world) (tmp : string) :
  (forall n, n ∈ load_tools cfg -> tool_clsname n ≠ "Make_ndx") ->
  (forall rec, rec ∈ load_scripts cfg -> script_clsname rec ≠ "Make_ndx") ->
  several_indices kw items ->
  drawn w = Some tmp ->
  exists self' w',
    _fake_multi_ndx (published cfg) kw (self, w)
    = (Raise (NameError "Make_ndx"), (self', w')) /\
    __init__ (published cfg) kw (self, w) = (Raise (NameError "Make_ndx"), (self', w')) /\
    (forall args, run (published cfg) args kw (self, w)
                  = (Raise (NameError "Make_ndx"), (self', w'))) /\
    multi_ndx self' = Some tmp /\
    fs w' = {[tmp]} ∪ fs w /\
    history w' = history w.
Proof.
  intros Htools Hscripts Hseveral Hdrawn.
  assert (Hnone : published cfg !! "Make_ndx" = None).
  { apply eq_None_not_Some. rewrite published_is_Some.
    intros [(n & Hn & Hk)|(rec & Hrec & Hk)]; [by apply (Htools n)|by apply (Hscripts rec)]. }
  pose proof (fake_multi_ndx_several (published cfg) kw items self w tmp Hseveral Hdrawn)
    as Hrun. cbn zeta in Hrun. rewrite Hnone in Hrun.
  unfold __init__, run, bind. rewrite Hrun. eexists _, _. repeat split.
Qed.

(** X8 for a configuration of [g_mindist] and [mdrun] only. *)
Lemma missing_make_ndx_witness :
  exists self' w',
    __init__ (published config_without_make_ndx) two_indices two_names_state
    = (Raise (NameError "Make_ndx"), (self', w')) /\
    multi_ndx self' = Some "/tmp/multi_k3x9Qa.ndx".
Proof.
  destruct (missing_make_ndx config_without_make_ndx two_indices
              [PyStr "a.ndx"; PyStr "b.ndx"] (fresh_instance G_mindist)
              (quiet_world ["a.ndx"; "b.ndx"; "md.tpr"] ["k3x9Qa"; "Zp0w2L"])
              "/tmp/multi_k3x9Qa.ndx")
    as (self' & w' & _ & Hinit & _ & Hpath & _).
  - intros n Hn. apply list_elem_of_In in Hn. simpl in Hn.
    destruct Hn as [<-|[<-|[]]]; vm_compute; discriminate.
  - intros rec Hrec. apply list_elem_of_In in Hrec. simpl in Hrec. destruct Hrec.
  - split; [left; reflexivity | simpl; lia].
  - vm_compute. reflexivity.
  - exists self', w'. split; [exact Hinit | exact Hpath].
Defined.

(** X9: when every name [mkstemp] tries is the name of an existing file,
    a call with several index files ends in the [IOError] of [mkstemp], out
    of [_fake_multi_ndx], the initialiser and [run] alike; the instance is
    untouched, no file is created and no command is run. *)
Theorem no_free_temporary_name (g : gmap string py_class) (kw : kwargs)
    (items : list pyval) (self : instance) (w : world) :
  several_indices kw items ->
  (forall name, name ∈ tmp_names w -> tmp_path (tmpdir w) "multi_" name ".ndx" ∈ fs w) ->
  exists w',
    _fake_multi_ndx g kw (self, w) = (Raise (IOError EEXIST), (self, w')) /\
    __init__ g kw (self, w) = (Raise (IOError EEXIST), (self, w')) /\
    (forall args, run g args kw (self, w) = (Raise (IOError EEXIST), (self, w'))) /\
    fs w' = fs w /\
    history w' = history w.
Proof.
  intros [Hndx Hlen] Hall.
  assert (Hcond : negb (is_None (dict_get kw "n") || type_is_str (dict_get kw "n")) = true)
    by (destruct Hndx as [-> | ->]; reflexivity).
  assert (Hpylen : py_len (dict_get kw "n") = Ok (length items))
    by (destruct Hndx as [-> | ->]; reflexivity).
  apply Nat.ltb_lt in Hlen.
  assert (Hrun : _fake_multi_ndx g kw (self, w)
                 = (Raise (IOError EEXIST), (self, set_tmp_names [] w))).
  { unfold _fake_multi_ndx. rewrite Hcond. unfold bind at 1, lift_res.
    rewrite Hpylen, Hlen. unfold bind at 1. unfold mkstemp, bind, get_world. cbn.
    by rewrite (mkstemp_inner_None _ _ _ _ _ Hall). }
  unfold __init__, run, bind. rewrite Hrun. eexists. repeat split.
Qed.

(** X9 for a world whose only temporary name is taken. *)
Lemma no_free_temporary_name_witness :
  exists w',
    _fake_multi_ndx example_globals two_indices (fresh_instance G_mindist, crowded_world)
    = (Raise (IOError EEXIST), (fresh_instance G_mindist, w')) /\
    fs w' = fs crowded_world.
Proof.
  destruct (no_free_temporary_name example_globals two_indices
              [PyStr "a.ndx"; PyStr "b.ndx"] (fresh_instance G_mindist) crowded_world)
    as (w' & Hrun & _ & _ & Hfs & _).
  - split; [left; reflexivity | simpl; lia].
  - intros name Hname. apply list_elem_of_In in Hname. simpl in Hname.
    destruct Hname as [<-|[]]. apply (bool_decide_unpack _). vm_compute. exact I.
  - exists w'. split; [exact Hrun | exact Hfs].
Defined.

Lemma del_removes_remembered (self : instance) (w : world) (path : string) :
  multi_ndx self = Some path ->
  unlink_refused w path = None ->
  exists w', __del__ (self, w) = (Ok tt, (self, w')) /\
             fs w' = fs w ∖ {[path]} /\
             history w' = history w /\
             unlink_refused w' = unlink_refused w.
Proof.
  intros Hpath Hfree.
  assert (Hdel : __del__ (self, w)
                 = (Ok tt, (self, if decide (path ∈ fs w)
                                  then set_fs (fs w ∖ {[path]}) w else w))).
  { unfold __del__, try_pass, bind, self_multi_ndx, get_self, unlink_gmx, get_world,
      put_world, raise, ret. cbn. rewrite Hpath. cbn. rewrite Hfree.
    by case_decide. }
  rewrite Hdel. eexists. split; [reflexivity|]. case_decide as Hin; [done|].
  split; [|done]. apply set_eq. intros x. rewrite elem_of_difference, elem_of_singleton.
  split; [|tauto]. intros Hx. split; [done|]. by intros ->.
Qed.

Lemma del_unchanged (self : instance) (w : world) :
  multi_ndx self = None \/
  (exists path, multi_ndx self = Some path /\
                (is_Some (unlink_refused w path) \/ path ∉ fs w)) ->
  __del__ (self, w) = (Ok tt, (self, w)).
Proof.
  unfold __del__, try_pass, bind, self_multi_ndx, get_self, unlink_gmx, get_world,
    put_world, raise, ret. cbn.
  intros [->|(path & -> & Hcase)]; cbn; [done|].
  destruct Hcase as [[n ->]|Hout]; cbn; [done|].
  destruct (unlink_refused w path); cbn; [done|]. by rewrite decide_False.
Qed.

(** X10: a call with several index files followed by the destruction of
    the instance leaves on disk exactly the files that were there before,
    whether the merge succeeded or failed, provided the system does not
    refuse the deletion; [__del__] itself runs no command. *)
Theorem merge_then_destroy_restores (g : gmap string py_class) (kw : kwargs)
    (items : list pyval) (self : instance) (w : world) (tmp : string)
    (r : res kwargs) (st1 : state) :
  several_indices kw items ->
  drawn w = Some tmp ->
  unlink_refused w tmp = None ->
  _fake_multi_ndx g kw (self, w) = (r, st1) ->
  exists st2,
    __del__ st1 = (Ok tt, st2) /\
    fs (snd st2) = fs w /\
    history (snd st2) = history (snd st1).
Proof.
  intros Hseveral Hdrawn Hfree Hrun.
  destruct (fake_multi_ndx_several_state g kw items self w tmp r st1 Hseveral Hdrawn Hrun)
    as (Hpath & _ & Hfs & Hrefused & _).
  destruct (mkstemp_inner_Some _ _ _ _ _ _ Hdrawn) as [Hfresh _].
  destruct st1 as [self1 w1]. cbn in *.
  destruct (del_removes_remembered self1 w1 tmp Hpath) as (w2 & Hdel & Hfs2 & Hhist & _).
  { by rewrite Hrefused. }
  exists (self1, w2). split; [done|]. split; [|done]. cbn. rewrite Hfs2, Hfs.
  apply set_eq. intros x. rewrite elem_of_difference, elem_of_union, elem_of_singleton.
  split; [tauto|]. intros Hx. split; [by right|]. by intros ->.
Qed.

(** X10 for a merge that succeeds. *)
Lemma merge_then_destroy_restores_witness :
  exists st2,
    __del__ (snd (_fake_multi_ndx example_globals two_indices two_names_state))
    = (Ok tt, st2) /\
    fs (snd st2) = fs (snd two_names_state).
Proof.
  destruct (merge_then_destroy_restores example_globals two_indices
              [PyStr "a.ndx"; PyStr "b.ndx"] (fresh_instance G_mindist)
              (quiet_world ["a.ndx"; "b.ndx"; "md.tpr"] ["k3x9Qa"; "Zp0w2L"])
              "/tmp/multi_k3x9Qa.ndx"
              (fst (_fake_multi_ndx example_globals two_indices two_names_state))
              (snd (_fake_multi_ndx example_globals two_indices two_names_state)))
    as (st2 & Hdel & Hfs & _).
  - split; [left; reflexivity | simpl; lia].
  - vm_compute. reflexivity.
  - reflexivity.
  - apply surjective_pairing.
  - exists st2. split; [exact Hdel | exact Hfs].
Defined.

(** X11: destroying an instance twice is the same as destroying it once:
    the second [__del__] finds the file gone, or refused again, or never
    created, and changes nothing. *)
Theorem del_twice (st : state) :
  (__del__ ;;; __del__) st = __del__ st.
Proof.
  destruct st as [self w]. unfold bind.
  destruct (multi_ndx self) as [path|] eqn:Hpath.
  2: { rewrite !(del_unchanged self w); auto. }
  destruct (unlink_refused w path) as [n|] eqn:Hrefused.
  { rewrite !(del_unchanged self w); eauto 6. }
  destruct (del_removes_remembered self w path Hpath Hrefused)
    as (w' & Hdel & Hfs & _ & Hrefused').
  rewrite Hdel. rewrite (del_unchanged self w'); [done|].
  right. exists path. split; [done|]. right. rewrite Hfs.
  rewrite elem_of_difference, elem_of_singleton. tauto.
Qed.

(** X12: when the merge of several index files succeeds, [run] hands the
    command wrapper the instance's class, the positional arguments as they
    are and the keyword arguments with [n] replaced by the temporary path,
    every other keyword being kept, and returns what the wrapper returns or
    raises what it raises; the initialiser does the same with the wrapper's
    initialiser.  The wrapper is reached after the two calls on
    [Make_ndx]. *)
Theorem several_indices_delegation (g : gmap string py_class) (kw : kwargs)
    (items : list pyval) (self : instance) (w : world) (tmp : string)
    (c : py_class) (r : Z * string * string) (args : list pyval) :
  several_indices kw items ->
  g !! "Make_ndx" = Some c ->
  drawn w = Some tmp ->
  make_ndx_outcome w c kw tmp = Ok r ->
  (exists st',
     run g args kw (self, w)
     = (run_result w (make_ndx_events c kw tmp ++ history w) ({[tmp]} ∪ fs w)
          (inst_class self) args (<["n" := PyStr tmp]> kw), st') /\
     history (snd st')
     = CoreRun (inst_class self) args (<["n" := PyStr tmp]> kw)
         :: make_ndx_events c kw tmp ++ history w) /\
  (exists st',
     __init__ g kw (self, w)
     = (match init_raises w (make_ndx_events c kw tmp ++ history w) ({[tmp]} ∪ fs w)
                (inst_class self) (<["n" := PyStr tmp]> kw) with
        | Some e => Raise e
        | None => Ok tt
        end, st') /\
     history (snd st')
     = CoreInit (inst_class self) (<["n" := PyStr tmp]> kw)
         :: make_ndx_events c kw tmp ++ history w) /\
  (forall k, k ≠ "n" -> (<["n" := PyStr tmp]> kw : kwargs) !! k = kw !! k).
Proof.
  intros Hseveral Hglobal Hdrawn Hout.
  pose proof (fake_multi_ndx_several g kw items self w tmp Hseveral Hdrawn) as Hrun.
  cbn zeta in Hrun. rewrite Hglobal in Hrun. unfold make_ndx_outcome in Hout.
  destruct (init_raises w _ _ c _) as [e|]; [discriminate|].
  rewrite Hout in Hrun.
  split; [|split].
  - unfold run, bind at 1. rewrite Hrun.
    unfold bind, get_self, core_run, get_world, put_world, lift_res. cbn.
    eexists. split; reflexivity.
  - unfold __init__, bind at 1. rewrite Hrun.
    unfold bind, get_self, core_init, get_world, put_world, raise, ret. cbn.
    destruct (init_raises w _ _ (inst_class self) _); eexists; split; reflexivity.
  - intros k Hk. by apply lookup_insert_ne.
Qed.

(** X12 for a run of [G_mindist] with two index files. *)
Lemma several_indices_delegation_witness :
  exists st',
    run example_globals [] two_indices two_names_state = (Ok (0%Z, "", ""), st') /\
    history (snd st')
    = CoreRun G_mindist [] (<["n" := PyStr "/tmp/multi_k3x9Qa.ndx"]> two_indices)
        :: make_ndx_events (tool_class "make_ndx") two_indices "/tmp/multi_k3x9Qa.ndx"
           ++ [].
Proof.
  refine (proj1 (several_indices_delegation example_globals two_indices
            [PyStr "a.ndx"; PyStr "b.ndx"] (fresh_instance G_mindist)
            (quiet_world ["a.ndx"; "b.ndx"; "md.tpr"] ["k3x9Qa"; "Zp0w2L"])
            "/tmp/multi_k3x9Qa.ndx" (tool_class "make_ndx") (0%Z, "", "") [] _ _ _ _)).
  - split; [left; reflexivity | simpl; lia].
  - vm_compute. reflexivity.
  - vm_compute. reflexivity.
  - reflexivity.
Defined.

(** X13: with the index argument missing, [None], a single file name
    whose type is exactly [str], or a value with a length of at most one,
    the initialiser and [run] of
    [GromacsCommandMultiIndex] are the ones of the command wrapper, same
    arguments, same result, same effects. *)
Theorem single_index_transparent (g : gmap string py_class) (kw : kwargs)
    (args : list pyval) (st : state) :
  single_index kw ->
  __init__ g kw st = core_init (inst_class (fst st)) kw st /\
  run g args kw st = core_run (inst_class (fst st)) args kw st.
Proof.
  intros Hsingle.
  assert (Hfake : _fake_multi_ndx g kw st = (Ok kw, st)).
  { unfold single_index in Hsingle. unfold _fake_multi_ndx, dict_get.
    destruct Hsingle as [H|[H|[[s H]|(v & n & H & Hlen & Hle)]]]; rewrite H;
      try reflexivity.
    destruct (negb (is_None v || type_is_str v)); [|reflexivity].
    unfold bind, lift_res. rewrite Hlen.
    destruct n as [|[|n]]; try reflexivity; lia. }
  unfold __init__, run, bind at 1 3. rewrite Hfake.
  unfold bind, get_self. by destruct st.
Qed.

(** X13 for a run with a single index file. *)
Lemma single_index_transparent_witness :
  run example_globals [] (<["n" := PyStr "index.ndx"]> ∅) two_names_state
  = core_run G_mindist [] (<["n" := PyStr "index.ndx"]> ∅) two_names_state.
Proof.
  refine (proj2 (single_index_transparent example_globals (<["n" := PyStr "index.ndx"]> ∅)
                   [] two_names_state _)).
  right. right. left. exists "index.ndx". reflexivity.
Defined.

(** X14: a further call with several index files draws a path different
    from the one the instance remembers and remembers the new one instead;
    both files are on disk after the call, and the destruction of the
    instance removes the second and leaves the first. *)
Theorem second_call_replaces_path (g : gmap string py_class) (kw1 kw2 : kwargs)
    (items1 items2 : list pyval) (self : instance) (w : world) (tmp1 tmp2 : string)
    (r1 r2 : res kwargs) (st1 st2 : state) :
  several_indices kw1 items1 ->
  drawn w = Some tmp1 ->
  _fake_multi_ndx g kw1 (self, w) = (r1, st1) ->
  several_indices kw2 items2 ->
  drawn (snd st1) = Some tmp2 ->
  _fake_multi_ndx g kw2 st1 = (r2, st2) ->
  tmp1 ≠ tmp2 /\
  multi_ndx (fst st1) = Some tmp1 /\
  multi_ndx (fst st2) = Some tmp2 /\
  tmp1 ∈ fs (snd st2) /\
  tmp2 ∈ fs (snd st2) /\
  (unlink_refused w tmp2 = None ->
   exists st3, __del__ st2 = (Ok tt, st3) /\
               tmp1 ∈ fs (snd st3) /\ (tmp2 ∉ fs (snd st3))).
Proof.
  intros Hsev1 Hdrawn1 Hrun1 Hsev2 Hdrawn2 Hrun2.
  destruct (fake_multi_ndx_several_state g kw1 items1 self w tmp1 r1 st1 Hsev1 Hdrawn1 Hrun1)
    as (Hpath1 & _ & Hfs1 & Hrefused1 & _).
  destruct st1 as [self1 w1]. cbn in *.
  destruct (fake_multi_ndx_several_state g kw2 items2 self1 w1 tmp2 r2 st2 Hsev2 Hdrawn2 Hrun2)
    as (Hpath2 & _ & Hfs2 & Hrefused2 & _).
  destruct (mkstemp_inner_Some _ _ _ _ _ _ Hdrawn2) as [Hfresh2 _].
  assert (Hne : tmp1 ≠ tmp2).
  { intros ->. apply Hfresh2. rewrite Hfs1. apply elem_of_union. left.
    by apply elem_of_singleton. }
  assert (Hin1 : tmp1 ∈ fs (snd st2)).
  { rewrite Hfs2, Hfs1. apply elem_of_union. right. apply elem_of_union. left.
    by apply elem_of_singleton. }
  split; [done|]. split; [done|]. split; [done|]. split; [done|].
  split; [rewrite Hfs2; apply elem_of_union; left; by apply elem_of_singleton|].
  intros Hfree. destruct st2 as [self2 w2]. cbn in *.
  destruct (del_removes_remembered self2 w2 tmp2 Hpath2) as (w3 & Hdel & Hfs3 & _).
  { by rewrite Hrefused2, Hrefused1. }
  exists (self2, w3). split; [done|]. cbn. rewrite Hfs3.
  rewrite !elem_of_difference, !elem_of_singleton. split; [done|].
  intros [_ Hself]. by apply Hself.
Qed.

(** X14 for two calls in a row on an instance of [G_mindist]. *)
Lemma second_call_replaces_path_witness :
  "/tmp/multi_k3x9Qa.ndx" ≠ "/tmp/multi_Zp0w2L.ndx" /\
  multi_ndx (fst (snd (_fake_multi_ndx example_globals two_indices
                         (snd (_fake_multi_ndx example_globals two_indices
                                 two_names_state)))))
  = Some "/tmp/multi_Zp0w2L.ndx".
Proof.
  destruct (second_call_replaces_path example_globals two_indices two_indices
              [PyStr "a.ndx"; PyStr "b.ndx"] [PyStr "a.ndx"; PyStr "b.ndx"]
              (fresh_instance G_mindist)
              (quiet_world ["a.ndx"; "b.ndx"; "md.tpr"] ["k3x9Qa"; "Zp0w2L"])
              "/tmp/multi_k3x9Qa.ndx" "/tmp/multi_Zp0w2L.ndx"
              (fst (_fake_multi_ndx example_globals two_indices two_names_state))
              (fst (_fake_multi_ndx example_globals two_indices
                      (snd (_fake_multi_ndx example_globals two_indices two_names_state))))
              (snd (_fake_multi_ndx example_globals two_indices two_names_state))
              (snd (_fake_multi_ndx example_globals two_indices
                      (snd (_fake_multi_ndx example_globals two_indices two_names_state)))))
    as (Hne & _ & Hpath & _).
  - split; [left; reflexivity | simpl; lia].
  - vm_compute. reflexivity.
  - apply surjective_pairing.
  - split; [left; reflexivity | simpl; lia].
  - vm_compute. reflexivity.
  - apply surjective_pairing.
  - split; [exact Hne | exact Hpath].
Defined.

(** The entry a loop leaves under a key comes from the last element with
    that key. *)
Lemma insert_all_inv_last {A : Type} (key : A -> string) (val : A -> py_class)
    (l : list A) (k : string) (c : py_class) :
  insert_all key val l ∅ !! k = Some c ->
  exists l1 x l2, l = l1 ++ x :: l2 /\ key x = k /\ c = val x /\
                  forall y, y ∈ l2 -> key y ≠ k.
Proof.
  induction l as [|z l IH] using rev_ind; intros Hlook.
  - unfold insert_all in Hlook. cbn in Hlook. by rewrite lookup_empty in Hlook.
  - rewrite insert_all_snoc in Hlook. destruct (decide (key z = k)) as [Heq|Hne].
    + subst k. rewrite lookup_insert_eq in Hlook. exists l, z, [].
      split; [done|]. split; [done|]. split; [by simplify_eq|].
      intros y Hy. by apply elem_of_nil in Hy.
    + rewrite lookup_insert_ne in Hlook by done.
      destruct (IH Hlook) as (l1 & x & l2 & -> & Hk & Hc & Hl2).
      exists l1, x, (l2 ++ [z]). split; [by rewrite <- app_assoc|].
      split; [done|]. split; [done|].
      intros y [Hy|Hy%list_elem_of_singleton]%elem_of_app; [by apply Hl2|by subst].
Qed.

(** X15: after the factory loop the class found under a class name is the
    one built for the greatest configured tool name with that class name, in
    the byte-wise order of [sorted]. *)
Theorem factory_keeps_greatest (tools : list string) (k : string) (c : py_class) :
  tools_registry tools !! k = Some c ->
  exists n, n ∈ tools /\ tool_clsname n = k /\ c = tool_class n /\
            command_name c = (n ++ "_mpi")%string /\
            forall n', n' ∈ tools -> tool_clsname n' = k -> String.le n' n.
Proof.
  rewrite tools_registry_eq. intros Hlook.
  destruct (insert_all_inv_last _ _ _ _ _ Hlook) as (l1 & n & l2 & Hs & Hk & -> & Hl2).
  assert (Hsorted : StronglySorted String.le (l1 ++ [n] ++ l2)).
  { cbn. rewrite <- Hs. apply (StronglySorted_merge_sort String.le). }
  exists n. split; [|split; [done|split; [done|split; [done|]]]].
  { apply elem_of_sorted. rewrite Hs. apply elem_of_app. right. by left. }
  intros n' Hn' Hk'. apply elem_of_sorted in Hn'. rewrite Hs in Hn'.
  apply elem_of_app in Hn' as [Hn'|Hn'].
  - apply (StronglySorted_app_1_elem_of _ _ _ _ _ Hsorted); [done|by left].
  - apply elem_of_cons in Hn' as [->|Hn']; [done|]. by destruct (Hl2 n' Hn').
Qed.

(** X15 for the key [Trjconv] with two configured spellings. *)
Lemma factory_keeps_greatest_witness :
  exists n, n ∈ ["trjconv"; "mdrun"; "Trjconv"] /\ tool_clsname n = "Trjconv" /\
            tool_class "trjconv" = tool_class n /\
            forall n', n' ∈ ["trjconv"; "mdrun"; "Trjconv"] ->
                       tool_clsname n' = "Trjconv" -> String.le n' n.
Proof.
  destruct (factory_keeps_greatest ["trjconv"; "mdrun"; "Trjconv"] "Trjconv"
              (tool_class "trjconv")) as (n & Hn & Hk & Hc & _ & Hmax).
  - vm_compute. reflexivity.
  - exists n. split; [exact Hn|]. split; [exact Hk|]. split; [exact Hc | exact Hmax].
Defined.

(** X16: the published classes other than the two replacement classes
    take their initialiser and their [run] from the command wrapper as they
    are: using them creates no file and reaches the wrapper exactly once. *)
Theorem plain_classes_delegate (cfg : config) (g : gmap string py_class)
    (k : string) (c : py_class) (args : list pyval) (kw : kwargs) (st : state) :
  published cfg !! k = Some c ->
  c ≠ G_mindist -> c ≠ G_dist ->
  class_init g c kw st = core_init c kw st /\
  class_run g c args kw st = core_run c args kw st /\
  fs (snd (snd (class_run g c args kw st))) = fs (snd st) /\
  fs (snd (snd (class_init g c kw st))) = fs (snd st) /\
  history (snd (snd (class_run g c args kw st))) = CoreRun c args kw :: history (snd st) /\
  history (snd (snd (class_init g c kw st))) = CoreInit c kw :: history (snd st).
Proof.
  intros Hlook H1 H2.
  assert (Hbase : cls_base c ≠ GromacsCommandMultiIndex).
  { intros Hb. rewrite published_eq in Hlook.
    apply insert_all_inv in Hlook as [(rec & _ & _ & ->)|Hp].
    { by rewrite script_class_base in Hb. }
    destruct (decide (k = "G_mindist")) as [->|Hk1].
    { rewrite patched_G_mindist in Hp.
      destruct (tools_registry _ !! "G_mindist"); by simplify_eq. }
    destruct (decide (k = "G_dist")) as [->|Hk2].
    { rewrite patched_G_dist in Hp.
      destruct (tools_registry _ !! "G_dist"); by simplify_eq. }
    rewrite patched_other in Hp by done.
    by apply tools_registry_inv in Hp as (n & _ & _ & ->). }
  assert (Hinit : class_init g c kw st = core_init c kw st).
  { unfold class_init. by destruct (cls_base c). }
  assert (Hrun : class_run g c args kw st = core_run c args kw st).
  { unfold class_run. by destruct (cls_base c). }
  rewrite Hinit, Hrun. destruct st as [self w].
  unfold core_init, core_run, bind, get_world, put_world, lift_res, raise, ret. cbn.
  repeat split. all: by destruct (init_raises w (history w) (fs w) c kw).
Qed.

(** X16 for the class of [mdrun]. *)
Lemma plain_classes_delegate_witness :
  class_run example_globals (tool_class "mdrun") [] ∅ two_names_state
  = core_run (tool_class "mdrun") [] ∅ two_names_state.
Proof.
  refine (proj1 (proj2 (plain_classes_delegate example_config example_globals "Mdrun"
                          (tool_class "mdrun") [] ∅ two_names_state _ _ _))).
  - vm_compute. reflexivity.
  - discriminate.
  - discriminate.
Defined.

(** ** The patched classes *)

Lemma multi_index_class_exposes (c : py_class) :
  cls_base c = GromacsCommandMultiIndex -> exposes_multi_index c.
Proof.
  intros Hbase. unfold exposes_multi_index, issubclass, class_init, class_run.
  rewrite Hbase. split; [done|]. split; [done|].
  intros g kw items self w tmp args Hseveral Hdrawn.
  unfold run, __init__, bind.
  destruct (_fake_multi_ndx g kw (self, w)) as [r st1] eqn:Hrun.
  destruct (fake_multi_ndx_several_state g kw items self w tmp r st1 Hseveral Hdrawn Hrun)
    as (Hpath & _ & Hfs & _).
  destruct r as [kw'|e]; [|done].
  destruct st1 as [self1 w1]. cbn in Hpath, Hfs.
  unfold get_self, core_run, core_init, bind, get_world, put_world, lift_res, raise, ret.
  cbn. split; [done|]. split; [done|].
  by destruct (init_raises w1 (history w1) (fs w1) (inst_class self1) kw').
Qed.

(** C6, as amended: for each of the two patched class names the patch step
    puts the replacement class, which derives from
    [GromacsCommandMultiIndex] and merges several index files in its
    initialiser and in [run], under that name if and only if the factory
    loop produced a class under that name, that is if and only if some
    configured tool name has that class name, as the tool name itself has;
    otherwise the registry has no entry under that name at that point.  The
    published registry has the same entry unless a configured script takes
    the class name, and then holds the class of the script, derived from
    [Command].  The classes of the factory loop do not derive from
    [GromacsCommandMultiIndex]. *)
Theorem patch_iff_generated (tools : list string) :
  patched_iff_generated tools "g_mindist" "G_mindist" G_mindist /\
  patched_iff_generated tools "g_dist" "G_dist" G_dist /\
  exposes_multi_index G_mindist /\
  exposes_multi_index G_dist /\
  (forall n, issubclass (tool_class n) GromacsCommandMultiIndex = false /\
             forall g, class_init g (tool_class n) = core_init (tool_class n) /\
                       class_run g (tool_class n) = core_run (tool_class n)).
Proof.
  split; [apply patched_iff_generated_G_mindist|].
  split; [apply patched_iff_generated_G_dist|].
  split; [by apply multi_index_class_exposes|].
  split; [by apply multi_index_class_exposes|].
  repeat split.
Qed.

(** C6 as it is stated fails in both directions: the tool spelled
    [G-MINDIST] gets the replacement class although [g_mindist] is not
    configured, and a script named [G_mindist] leaves an entry under that
    name, with a class derived from [Command], although no tool is
    configured at all. *)
Lemma patched_not_iff_configured :
  ~ patched_iff_configured capitals_config "g_mindist" "G_mindist" /\
  ~ patched_iff_configured script_G_mindist_config "g_mindist" "G_mindist".
Proof.
  split.
  - intros [[Hforth _] _].
    assert (Hin : "g_mindist" ∈ load_tools capitals_config).
    { apply Hforth. exists G_mindist. split; vm_compute; reflexivity. }
    apply list_elem_of_In in Hin. simpl in Hin. destruct Hin as [Heq|[]]. discriminate.
  - intros [_ Hnone].
    assert (Hlook : published script_G_mindist_config !! "G_mindist" = None).
    { apply Hnone. intros Hin. apply list_elem_of_In in Hin. destruct Hin. }
    vm_compute in Hlook. discriminate.
Qed.

(** C2 as it is stated fails on a file name that is a [unicode] string:
    it is not of type [str], it has a length, and it is merged like a list,
    a temporary file being created and [Make_ndx] run. *)
Lemma unicode_name_is_merged :
  ~ single_index_passes_through /\
  (exists st',
     _fake_multi_ndx example_globals unicode_index two_names_state
     = (Ok (<["n" := PyStr "/tmp/multi_k3x9Qa.ndx"]> unicode_index), st') /\
     multi_ndx (fst st') = Some "/tmp/multi_k3x9Qa.ndx" /\
     history (snd st')
     = make_ndx_events (tool_class "make_ndx") unicode_index "/tmp/multi_k3x9Qa.ndx").
Proof.
  split.
  - intros Hpass.
    assert (Hrun : _fake_multi_ndx example_globals unicode_index two_names_state
                   = (Ok unicode_index, two_names_state)).
    { apply Hpass. right. right. left. exists (PyUnicode "index.ndx").
      split; [reflexivity|]. exists "index.ndx". right. by left. }
    apply (f_equal (fun r => multi_ndx (fst (snd r)))) in Hrun.
    vm_compute in Hrun. discriminate.
  - eexists. split; [vm_compute; reflexivity|]. split; vm_compute; reflexivity.
Qed.
